(** * SteamVR-OSVR: tracked-device core

    A shallow embedding of the device facade of the SteamVR-OSVR driver:
    the typed property getter of [OSVRTrackedDevice.h], the per-eye
    viewport and projection code and the tracker callback of the older
    single-header [OSVRTrackedDevice], and the activation, distortion,
    callback and display configuration code of [OSVRTrackedHMD].

    Conventions.
    - [double] and [float] quantities are idealised as real numbers ([R]);
      no rounding is modelled.
    - [uint32_t] values are integers in [0, 2^32) with the wrap-around
      written out ([wrap32]).
    - Calls that may raise or fault return an explicit outcome.
    - Logging is not modelled, except for the diagnostic of the viewport
      code, which is part of its result. *)

From Stdlib Require Import ZArith List String Bool Reals Lra Lia.
From stdpp Require Import gmap.

Local Open Scope Z_scope.

(** ** OpenVR enumerations used by the driver *)

Inductive ETrackedDeviceClass :=
| TrackedDeviceClass_Invalid
| TrackedDeviceClass_HMD
| TrackedDeviceClass_Controller
| TrackedDeviceClass_TrackingReference
| TrackedDeviceClass_Other.

Inductive ETrackedPropertyError :=
| TrackedProp_Success
| TrackedProp_WrongDataType
| TrackedProp_WrongDeviceClass
| TrackedProp_BufferTooSmall
| TrackedProp_UnknownProperty
| TrackedProp_InvalidDevice
| TrackedProp_CouldNotContactServer
| TrackedProp_ValueNotProvidedByDevice
| TrackedProp_StringExceedsMaximumLength.

(** [vr::ETrackedDeviceProperty] is an integer-valued enumeration. *)
Definition ETrackedDeviceProperty := Z.

Inductive Hmd_Eye := Eye_Left | Eye_Right.

Definition ETrackedDeviceClass_eqb (a b : ETrackedDeviceClass) : bool :=
  match a, b with
  | TrackedDeviceClass_Invalid, TrackedDeviceClass_Invalid
  | TrackedDeviceClass_HMD, TrackedDeviceClass_HMD
  | TrackedDeviceClass_Controller, TrackedDeviceClass_Controller
  | TrackedDeviceClass_TrackingReference, TrackedDeviceClass_TrackingReference
  | TrackedDeviceClass_Other, TrackedDeviceClass_Other => true
  | _, _ => false
  end.

Definition Hmd_Eye_eqb (a b : Hmd_Eye) : bool :=
  match a, b with
  | Eye_Left, Eye_Left | Eye_Right, Eye_Right => true
  | _, _ => false
  end.

(** ** Property store (OSVRTrackedDevice.h) *)

Module PropertyStore.

(** The six semantic kinds a property can have; the template parameter
    [T] of the getters ranges over them. *)
Inductive PropertyKind :=
| K_bool | K_float | K_int32 | K_uint64 | K_string | K_matrix34.

Definition HmdMatrix34_t := list (list R).

(** The C++ type denoted by a kind. *)
Definition cpp_type (T : PropertyKind) : Type :=
  match T with
  | K_bool => bool
  | K_float => R
  | K_int32 => Z
  | K_uint64 => Z
  | K_string => string
  | K_matrix34 => HmdMatrix34_t
  end.

(** Modelled from the spec: the value type of [PropertyMap]
    (PropertyMap.h is not part of the sources), a tagged union over the
    six kinds. *)
Inductive PropertyValue :=
| V_bool (b : bool)
| V_float (f : R)
| V_int32 (i : Z)
| V_uint64 (u : Z)
| V_string (s : string)
| V_matrix34 (m : HmdMatrix34_t).

Definition to_variant (T : PropertyKind) : cpp_type T -> PropertyValue :=
  match T with
  | K_bool => V_bool
  | K_float => V_float
  | K_int32 => V_int32
  | K_uint64 => V_uint64
  | K_string => V_string
  | K_matrix34 => V_matrix34
  end.

(** [boost::get<T>]: the held value when the variant holds a [T];
    [None] stands for the [bad_get] it raises otherwise. *)
Definition boost_get (T : PropertyKind) (v : PropertyValue)
  : option (cpp_type T) :=
  match T, v with
  | K_bool, V_bool b => Some b
  | K_float, V_float f => Some f
  | K_int32, V_int32 i => Some i
  | K_uint64, V_uint64 u => Some u
  | K_string, V_string s => Some s
  | K_matrix34, V_matrix34 m => Some m
  | _, _ => None
  end.

(** The predicates of PropertyProperties.h, which is not part of the
    sources; the getter is parametric in them. *)
Class PropertyProperties := {
  isWrongDataType : ETrackedDeviceProperty -> PropertyKind -> bool;
  isWrongDeviceClass : ETrackedDeviceProperty -> ETrackedDeviceClass -> bool
}.

(** The members of [OSVRTrackedDevice] the property getters read. *)
Record OSVRTrackedDevice := {
  deviceClass_ : ETrackedDeviceClass;
  properties_ : gmap Z PropertyValue
}.

(** The error-out parameter is a nullable pointer to a cell holding an
    [ETrackedPropertyError]. *)
Inductive pointer := nullptr | ptr (a : nat).

Definition is_null (p : pointer) : bool :=
  match p with nullptr => true | ptr _ => false end.

(** What a call can do: return a value, write through a null pointer, or
    leave with [boost::bad_get]. The memory of error cells is threaded
    through. *)
Inductive outcome (A : Type) :=
| Returned (v : A) (m : gmap nat ETrackedPropertyError)
| NullDereference
| BadGet (m : gmap nat ETrackedPropertyError).
Arguments Returned {A} v m.
Arguments NullDereference {A}.
Arguments BadGet {A} m.

Definition M (A : Type) : Type :=
  gmap nat ETrackedPropertyError -> outcome A.

Definition ret {A} (v : A) : M A := fun m => Returned v m.

Definition bind {A B} (c : M A) (k : A -> M B) : M B :=
  fun m =>
    match c m with
    | Returned v m' => k v m'
    | NullDereference => NullDereference
    | BadGet m' => BadGet m'
    end.

Declare Scope cpp_scope.
Delimit Scope cpp_scope with cpp.
Notation "c ;; k" := (bind c (fun _ => k))
  (at level 100, k at level 200, right associativity) : cpp_scope.
Local Open Scope cpp_scope.

(** [*p = e] *)
Definition store (p : pointer) (e : ETrackedPropertyError) : M unit :=
  fun m =>
    match p with
    | nullptr => NullDereference
    | ptr a => Returned tt (<[a := e]> m)
    end.

(** [throw boost::bad_get()] *)
Definition throw_bad_get {A} : M A := fun m => BadGet m.

(** [if (p) *p = e;] *)
Definition store_if_nonnull (p : pointer) (e : ETrackedPropertyError)
  : M unit :=
  if is_null p then ret tt else store p e.

Section Getter.
Context {PP : PropertyProperties}.
Variable self : OSVRTrackedDevice.

(** [OSVRTrackedDevice::checkProperty<T>] *)
Definition checkProperty (T : PropertyKind) (prop : ETrackedDeviceProperty)
  : ETrackedPropertyError :=
  if isWrongDataType prop T then TrackedProp_WrongDataType
  else if isWrongDeviceClass prop (deviceClass_ self)
  then TrackedProp_WrongDeviceClass
  else if ETrackedDeviceClass_eqb TrackedDeviceClass_Invalid
            (deviceClass_ self)
  then TrackedProp_InvalidDevice
  else TrackedProp_Success.

(** [OSVRTrackedDevice::GetTrackedDeviceProperty<T>] *)
Definition GetTrackedDeviceProperty (T : PropertyKind)
    (prop : ETrackedDeviceProperty) (error : pointer)
    (default_value : cpp_type T) : M (cpp_type T) :=
  let result := checkProperty T prop in
  match result with
  | TrackedProp_Success =>
      match properties_ self !! prop with
      | Some stored =>
          store_if_nonnull error TrackedProp_Success ;;
          match boost_get T stored with
          | Some v => ret v
          | None => throw_bad_get
          end
      | None =>
          store_if_nonnull error TrackedProp_ValueNotProvidedByDevice ;;
          ret default_value
      end
  | _ =>
      store_if_nonnull error result ;;
      ret default_value
  end.
End Getter.

(** A small registry to exercise the getter on: the kind is that of the
    identifier's suffix, identifiers from 2000 to 2999 are for HMDs
    only. *)
Definition Prop_ModelNumber_String : ETrackedDeviceProperty := 1001.
Definition Prop_WillDriftInYaw_Bool : ETrackedDeviceProperty := 1004.
Definition Prop_DeviceClass_Int32 : ETrackedDeviceProperty := 1029.
Definition Prop_DisplayFrequency_Float : ETrackedDeviceProperty := 2002.
Definition Prop_UserIpdMeters_Float : ETrackedDeviceProperty := 2003.
Definition Prop_CurrentUniverseId_Uint64 : ETrackedDeviceProperty := 2004.

Definition PropertyKind_eqb (a b : PropertyKind) : bool :=
  match a, b with
  | K_bool, K_bool | K_float, K_float | K_int32, K_int32
  | K_uint64, K_uint64 | K_string, K_string | K_matrix34, K_matrix34 => true
  | _, _ => false
  end.

Definition sample_kind (prop : ETrackedDeviceProperty) : PropertyKind :=
  if prop =? Prop_ModelNumber_String then K_string
  else if prop =? Prop_WillDriftInYaw_Bool then K_bool
  else if prop =? Prop_DeviceClass_Int32 then K_int32
  else if prop =? Prop_CurrentUniverseId_Uint64 then K_uint64
  else K_float.

Definition sample_properties : PropertyProperties :=
  {| isWrongDataType prop T := negb (PropertyKind_eqb (sample_kind prop) T);
     isWrongDeviceClass prop device_class :=
       (2000 <=? prop) && (prop <? 3000) &&
       negb (ETrackedDeviceClass_eqb device_class TrackedDeviceClass_HMD) |}.

(** An HMD with two properties written. *)
Definition sample_hmd : OSVRTrackedDevice :=
  {| deviceClass_ := TrackedDeviceClass_HMD;
     properties_ :=
       <[Prop_UserIpdMeters_Float := V_float (63 / 1000)]>
         (<[Prop_WillDriftInYaw_Bool := V_bool true]> ∅) |}.


(** [properties_[prop] = value;], the write the configuration code
    performs for each property it provides. *)
Definition assign (prop : ETrackedDeviceProperty) (value : PropertyValue)
    (self : OSVRTrackedDevice) : OSVRTrackedDevice :=
  {| deviceClass_ := deviceClass_ self;
     properties_ := <[prop := value]> (properties_ self) |}.

(** The memory a call leaves behind, when it does not fault. *)
Definition memory_after {A} (o : outcome A)
  : option (gmap nat ETrackedPropertyError) :=
  match o with
  | Returned _ m => Some m
  | NullDereference => None
  | BadGet m => Some m
  end.

(** A controller and a device whose class was never set, both holding a
    value for the HMD's interpupillary distance. *)
Definition sample_controller : OSVRTrackedDevice :=
  {| deviceClass_ := TrackedDeviceClass_Controller;
     properties_ := <[Prop_UserIpdMeters_Float := V_float (63 / 1000)]> ∅ |}.

Definition sample_invalid : OSVRTrackedDevice :=
  {| deviceClass_ := TrackedDeviceClass_Invalid;
     properties_ := <[Prop_WillDriftInYaw_Bool := V_bool true]> ∅ |}.

End PropertyStore.

(** ** Fixed-size arrays and the pose structures *)

Record array3 (A : Type) := Array3 { a0 : A; a1 : A; a2 : A }.
Arguments Array3 {A} a0 a1 a2.
Arguments a0 {A} _.
Arguments a1 {A} _.
Arguments a2 {A} _.

(** [v[i]] for [i < 3] *)
Definition get3 {A} (v : array3 A) (i : nat) : A :=
  match i with
  | O => a0 v
  | S O => a1 v
  | _ => a2 v
  end.

(** [v[i] = x] for [i < 3] *)
Definition set3 {A} (v : array3 A) (i : nat) (x : A) : array3 A :=
  match i with
  | O => Array3 x (a1 v) (a2 v)
  | S O => Array3 (a0 v) x (a2 v)
  | S (S O) => Array3 (a0 v) (a1 v) x
  | _ => v
  end.

Definition map3 {A B} (f : A -> B) (v : array3 A) : array3 B :=
  Array3 (f (a0 v)) (f (a1 v)) (f (a2 v)).

(** [for (int i = 0; i < 3; ++i) body] *)
Definition for3 {S : Type} (body : nat -> S -> S) (s : S) : S :=
  fold_left (fun st i => body i st) (seq 0 3) s.

(** [OSVR_Quaternion], read through [osvrQuatGetW] .. [osvrQuatGetZ]. *)
Record OSVR_Quaternion := {
  osvrQuatGetW : R;
  osvrQuatGetX : R;
  osvrQuatGetY : R;
  osvrQuatGetZ : R
}.

(** [report->pose] of an [OSVR_PoseReport]: [translation.data] and
    [rotation]. *)
Record OSVR_PoseReport := {
  translation : array3 R;
  rotation : OSVR_Quaternion
}.

Inductive ETrackingResult :=
| TrackingResult_Uninitialized
| TrackingResult_Calibrating_InProgress
| TrackingResult_Calibrating_OutOfRange
| TrackingResult_Running_OK
| TrackingResult_Running_OutOfRange.

(** A member of a local that has not been assigned yet holds no value:
    every scalar of the pose is an [option]. *)
Record HmdQuaternion_t := {
  qw : option R;
  qx : option R;
  qy : option R;
  qz : option R
}.

Record DriverPose_t := {
  poseTimeOffset : option R;
  qWorldFromDriverRotation : HmdQuaternion_t;
  vecWorldFromDriverTranslation : array3 (option R);
  qDriverFromHeadRotation : HmdQuaternion_t;
  vecDriverFromHeadTranslation : array3 (option R);
  vecPosition : array3 (option R);
  vecVelocity : array3 (option R);
  vecAcceleration : array3 (option R);
  qRotation : HmdQuaternion_t;
  vecAngularVelocity : array3 (option R);
  vecAngularAcceleration : array3 (option R);
  result : option ETrackingResult;
  poseIsValid : option bool;
  willDriftInYaw : option bool;
  shouldApplyHeadModel : option bool
}.

Definition indeterminate_quaternion : HmdQuaternion_t :=
  {| qw := None; qx := None; qy := None; qz := None |}.

Definition indeterminate3 : array3 (option R) := Array3 None None None.

(** [vr::DriverPose_t pose;] *)
Definition indeterminate_pose : DriverPose_t :=
  {| poseTimeOffset := None;
     qWorldFromDriverRotation := indeterminate_quaternion;
     vecWorldFromDriverTranslation := indeterminate3;
     qDriverFromHeadRotation := indeterminate_quaternion;
     vecDriverFromHeadTranslation := indeterminate3;
     vecPosition := indeterminate3;
     vecVelocity := indeterminate3;
     vecAcceleration := indeterminate3;
     qRotation := indeterminate_quaternion;
     vecAngularVelocity := indeterminate3;
     vecAngularAcceleration := indeterminate3;
     result := None;
     poseIsValid := None;
     willDriftInYaw := None;
     shouldApplyHeadModel := None |}.

(** Member assignments. [set_m v p] is [p.m = v] for a scalar member;
    [upd_m f p] applies an assignment [f] inside the composite member [m]
    ([p.m.w = ..], [p.m[i] = ..]). *)
Definition set_w (v : R) (q : HmdQuaternion_t) : HmdQuaternion_t :=
  {| qw := Some v; qx := qx q; qy := qy q; qz := qz q |}.

Definition set_x (v : R) (q : HmdQuaternion_t) : HmdQuaternion_t :=
  {| qw := qw q; qx := Some v; qy := qy q; qz := qz q |}.

Definition set_y (v : R) (q : HmdQuaternion_t) : HmdQuaternion_t :=
  {| qw := qw q; qx := qx q; qy := Some v; qz := qz q |}.

Definition set_z (v : R) (q : HmdQuaternion_t) : HmdQuaternion_t :=
  {| qw := qw q; qx := qx q; qy := qy q; qz := Some v |}.

(** [a[i] = v] on an array of doubles *)
Definition set_at (i : nat) (v : R) (a : array3 (option R))
  : array3 (option R) :=
  set3 a i (Some v).

Definition set_poseTimeOffset (v : R) (p : DriverPose_t) : DriverPose_t :=
  {| poseTimeOffset := Some v;
     qWorldFromDriverRotation := qWorldFromDriverRotation p;
     vecWorldFromDriverTranslation := vecWorldFromDriverTranslation p;
     qDriverFromHeadRotation := qDriverFromHeadRotation p;
     vecDriverFromHeadTranslation := vecDriverFromHeadTranslation p;
     vecPosition := vecPosition p;
     vecVelocity := vecVelocity p;
     vecAcceleration := vecAcceleration p;
     qRotation := qRotation p;
     vecAngularVelocity := vecAngularVelocity p;
     vecAngularAcceleration := vecAngularAcceleration p;
     result := result p;
     poseIsValid := poseIsValid p;
     willDriftInYaw := willDriftInYaw p;
     shouldApplyHeadModel := shouldApplyHeadModel p |}.

Definition upd_qWorldFromDriverRotation (f : HmdQuaternion_t -> HmdQuaternion_t)
    (p : DriverPose_t) : DriverPose_t :=
  {| poseTimeOffset := poseTimeOffset p;
     qWorldFromDriverRotation := f (qWorldFromDriverRotation p);
     vecWorldFromDriverTranslation := vecWorldFromDriverTranslation p;
     qDriverFromHeadRotation := qDriverFromHeadRotation p;
     vecDriverFromHeadTranslation := vecDriverFromHeadTranslation p;
     vecPosition := vecPosition p;
     vecVelocity := vecVelocity p;
     vecAcceleration := vecAcceleration p;
     qRotation := qRotation p;
     vecAngularVelocity := vecAngularVelocity p;
     vecAngularAcceleration := vecAngularAcceleration p;
     result := result p;
     poseIsValid := poseIsValid p;
     willDriftInYaw := willDriftInYaw p;
     shouldApplyHeadModel := shouldApplyHeadModel p |}.

Definition upd_vecWorldFromDriverTranslation (f : array3 (option R) -> array3 (option R))
    (p : DriverPose_t) : DriverPose_t :=
  {| poseTimeOffset := poseTimeOffset p;
     qWorldFromDriverRotation := qWorldFromDriverRotation p;
     vecWorldFromDriverTranslation := f (vecWorldFromDriverTranslation p);
     qDriverFromHeadRotation := qDriverFromHeadRotation p;
     vecDriverFromHeadTranslation := vecDriverFromHeadTranslation p;
     vecPosition := vecPosition p;
     vecVelocity := vecVelocity p;
     vecAcceleration := vecAcceleration p;
     qRotation := qRotation p;
     vecAngularVelocity := vecAngularVelocity p;
     vecAngularAcceleration := vecAngularAcceleration p;
     result := result p;
     poseIsValid := poseIsValid p;
     willDriftInYaw := willDriftInYaw p;
     shouldApplyHeadModel := shouldApplyHeadModel p |}.

Definition upd_qDriverFromHeadRotation (f : HmdQuaternion_t -> HmdQuaternion_t)
    (p : DriverPose_t) : DriverPose_t :=
  {| poseTimeOffset := poseTimeOffset p;
     qWorldFromDriverRotation := qWorldFromDriverRotation p;
     vecWorldFromDriverTranslation := vecWorldFromDriverTranslation p;
     qDriverFromHeadRotation := f (qDriverFromHeadRotation p);
     vecDriverFromHeadTranslation := vecDriverFromHeadTranslation p;
     vecPosition := vecPosition p;
     vecVelocity := vecVelocity p;
     vecAcceleration := vecAcceleration p;
     qRotation := qRotation p;
     vecAngularVelocity := vecAngularVelocity p;
     vecAngularAcceleration := vecAngularAcceleration p;
     result := result p;
     poseIsValid := poseIsValid p;
     willDriftInYaw := willDriftInYaw p;
     shouldApplyHeadModel := shouldApplyHeadModel p |}.

Definition upd_vecDriverFromHeadTranslation (f : array3 (option R) -> array3 (option R))
    (p : DriverPose_t) : DriverPose_t :=
  {| poseTimeOffset := poseTimeOffset p;
     qWorldFromDriverRotation := qWorldFromDriverRotation p;
     vecWorldFromDriverTranslation := vecWorldFromDriverTranslation p;
     qDriverFromHeadRotation := qDriverFromHeadRotation p;
     vecDriverFromHeadTranslation := f (vecDriverFromHeadTranslation p);
     vecPosition := vecPosition p;
     vecVelocity := vecVelocity p;
     vecAcceleration := vecAcceleration p;
     qRotation := qRotation p;
     vecAngularVelocity := vecAngularVelocity p;
     vecAngularAcceleration := vecAngularAcceleration p;
     result := result p;
     poseIsValid := poseIsValid p;
     willDriftInYaw := willDriftInYaw p;
     shouldApplyHeadModel := shouldApplyHeadModel p |}.

Definition upd_vecPosition (f : array3 (option R) -> array3 (option R))
    (p : DriverPose_t) : DriverPose_t :=
  {| poseTimeOffset := poseTimeOffset p;
     qWorldFromDriverRotation := qWorldFromDriverRotation p;
     vecWorldFromDriverTranslation := vecWorldFromDriverTranslation p;
     qDriverFromHeadRotation := qDriverFromHeadRotation p;
     vecDriverFromHeadTranslation := vecDriverFromHeadTranslation p;
     vecPosition := f (vecPosition p);
     vecVelocity := vecVelocity p;
     vecAcceleration := vecAcceleration p;
     qRotation := qRotation p;
     vecAngularVelocity := vecAngularVelocity p;
     vecAngularAcceleration := vecAngularAcceleration p;
     result := result p;
     poseIsValid := poseIsValid p;
     willDriftInYaw := willDriftInYaw p;
     shouldApplyHeadModel := shouldApplyHeadModel p |}.

Definition upd_vecVelocity (f : array3 (option R) -> array3 (option R))
    (p : DriverPose_t) : DriverPose_t :=
  {| poseTimeOffset := poseTimeOffset p;
     qWorldFromDriverRotation := qWorldFromDriverRotation p;
     vecWorldFromDriverTranslation := vecWorldFromDriverTranslation p;
     qDriverFromHeadRotation := qDriverFromHeadRotation p;
     vecDriverFromHeadTranslation := vecDriverFromHeadTranslation p;
     vecPosition := vecPosition p;
     vecVelocity := f (vecVelocity p);
     vecAcceleration := vecAcceleration p;
     qRotation := qRotation p;
     vecAngularVelocity := vecAngularVelocity p;
     vecAngularAcceleration := vecAngularAcceleration p;
     result := result p;
     poseIsValid := poseIsValid p;
     willDriftInYaw := willDriftInYaw p;
     shouldApplyHeadModel := shouldApplyHeadModel p |}.

Definition upd_vecAcceleration (f : array3 (option R) -> array3 (option R))
    (p : DriverPose_t) : DriverPose_t :=
  {| poseTimeOffset := poseTimeOffset p;
     qWorldFromDriverRotation := qWorldFromDriverRotation p;
     vecWorldFromDriverTranslation := vecWorldFromDriverTranslation p;
     qDriverFromHeadRotation := qDriverFromHeadRotation p;
     vecDriverFromHeadTranslation := vecDriverFromHeadTranslation p;
     vecPosition := vecPosition p;
     vecVelocity := vecVelocity p;
     vecAcceleration := f (vecAcceleration p);
     qRotation := qRotation p;
     vecAngularVelocity := vecAngularVelocity p;
     vecAngularAcceleration := vecAngularAcceleration p;
     result := result p;
     poseIsValid := poseIsValid p;
     willDriftInYaw := willDriftInYaw p;
     shouldApplyHeadModel := shouldApplyHeadModel p |}.

Definition upd_qRotation (f : HmdQuaternion_t -> HmdQuaternion_t)
    (p : DriverPose_t) : DriverPose_t :=
  {| poseTimeOffset := poseTimeOffset p;
     qWorldFromDriverRotation := qWorldFromDriverRotation p;
     vecWorldFromDriverTranslation := vecWorldFromDriverTranslation p;
     qDriverFromHeadRotation := qDriverFromHeadRotation p;
     vecDriverFromHeadTranslation := vecDriverFromHeadTranslation p;
     vecPosition := vecPosition p;
     vecVelocity := vecVelocity p;
     vecAcceleration := vecAcceleration p;
     qRotation := f (qRotation p);
     vecAngularVelocity := vecAngularVelocity p;
     vecAngularAcceleration := vecAngularAcceleration p;
     result := result p;
     poseIsValid := poseIsValid p;
     willDriftInYaw := willDriftInYaw p;
     shouldApplyHeadModel := shouldApplyHeadModel p |}.

Definition upd_vecAngularVelocity (f : array3 (option R) -> array3 (option R))
    (p : DriverPose_t) : DriverPose_t :=
  {| poseTimeOffset := poseTimeOffset p;
     qWorldFromDriverRotation := qWorldFromDriverRotation p;
     vecWorldFromDriverTranslation := vecWorldFromDriverTranslation p;
     qDriverFromHeadRotation := qDriverFromHeadRotation p;
     vecDriverFromHeadTranslation := vecDriverFromHeadTranslation p;
     vecPosition := vecPosition p;
     vecVelocity := vecVelocity p;
     vecAcceleration := vecAcceleration p;
     qRotation := qRotation p;
     vecAngularVelocity := f (vecAngularVelocity p);
     vecAngularAcceleration := vecAngularAcceleration p;
     result := result p;
     poseIsValid := poseIsValid p;
     willDriftInYaw := willDriftInYaw p;
     shouldApplyHeadModel := shouldApplyHeadModel p |}.

Definition upd_vecAngularAcceleration (f : array3 (option R) -> array3 (option R))
    (p : DriverPose_t) : DriverPose_t :=
  {| poseTimeOffset := poseTimeOffset p;
     qWorldFromDriverRotation := qWorldFromDriverRotation p;
     vecWorldFromDriverTranslation := vecWorldFromDriverTranslation p;
     qDriverFromHeadRotation := qDriverFromHeadRotation p;
     vecDriverFromHeadTranslation := vecDriverFromHeadTranslation p;
     vecPosition := vecPosition p;
     vecVelocity := vecVelocity p;
     vecAcceleration := vecAcceleration p;
     qRotation := qRotation p;
     vecAngularVelocity := vecAngularVelocity p;
     vecAngularAcceleration := f (vecAngularAcceleration p);
     result := result p;
     poseIsValid := poseIsValid p;
     willDriftInYaw := willDriftInYaw p;
     shouldApplyHeadModel := shouldApplyHeadModel p |}.

Definition set_result (v : ETrackingResult) (p : DriverPose_t) : DriverPose_t :=
  {| poseTimeOffset := poseTimeOffset p;
     qWorldFromDriverRotation := qWorldFromDriverRotation p;
     vecWorldFromDriverTranslation := vecWorldFromDriverTranslation p;
     qDriverFromHeadRotation := qDriverFromHeadRotation p;
     vecDriverFromHeadTranslation := vecDriverFromHeadTranslation p;
     vecPosition := vecPosition p;
     vecVelocity := vecVelocity p;
     vecAcceleration := vecAcceleration p;
     qRotation := qRotation p;
     vecAngularVelocity := vecAngularVelocity p;
     vecAngularAcceleration := vecAngularAcceleration p;
     result := Some v;
     poseIsValid := poseIsValid p;
     willDriftInYaw := willDriftInYaw p;
     shouldApplyHeadModel := shouldApplyHeadModel p |}.

Definition set_poseIsValid (v : bool) (p : DriverPose_t) : DriverPose_t :=
  {| poseTimeOffset := poseTimeOffset p;
     qWorldFromDriverRotation := qWorldFromDriverRotation p;
     vecWorldFromDriverTranslation := vecWorldFromDriverTranslation p;
     qDriverFromHeadRotation := qDriverFromHeadRotation p;
     vecDriverFromHeadTranslation := vecDriverFromHeadTranslation p;
     vecPosition := vecPosition p;
     vecVelocity := vecVelocity p;
     vecAcceleration := vecAcceleration p;
     qRotation := qRotation p;
     vecAngularVelocity := vecAngularVelocity p;
     vecAngularAcceleration := vecAngularAcceleration p;
     result := result p;
     poseIsValid := Some v;
     willDriftInYaw := willDriftInYaw p;
     shouldApplyHeadModel := shouldApplyHeadModel p |}.

Definition set_willDriftInYaw (v : bool) (p : DriverPose_t) : DriverPose_t :=
  {| poseTimeOffset := poseTimeOffset p;
     qWorldFromDriverRotation := qWorldFromDriverRotation p;
     vecWorldFromDriverTranslation := vecWorldFromDriverTranslation p;
     qDriverFromHeadRotation := qDriverFromHeadRotation p;
     vecDriverFromHeadTranslation := vecDriverFromHeadTranslation p;
     vecPosition := vecPosition p;
     vecVelocity := vecVelocity p;
     vecAcceleration := vecAcceleration p;
     qRotation := qRotation p;
     vecAngularVelocity := vecAngularVelocity p;
     vecAngularAcceleration := vecAngularAcceleration p;
     result := result p;
     poseIsValid := poseIsValid p;
     willDriftInYaw := Some v;
     shouldApplyHeadModel := shouldApplyHeadModel p |}.

Definition set_shouldApplyHeadModel (v : bool) (p : DriverPose_t) : DriverPose_t :=
  {| poseTimeOffset := poseTimeOffset p;
     qWorldFromDriverRotation := qWorldFromDriverRotation p;
     vecWorldFromDriverTranslation := vecWorldFromDriverTranslation p;
     qDriverFromHeadRotation := qDriverFromHeadRotation p;
     vecDriverFromHeadTranslation := vecDriverFromHeadTranslation p;
     vecPosition := vecPosition p;
     vecVelocity := vecVelocity p;
     vecAcceleration := vecAcceleration p;
     qRotation := qRotation p;
     vecAngularVelocity := vecAngularVelocity p;
     vecAngularAcceleration := vecAngularAcceleration p;
     result := result p;
     poseIsValid := poseIsValid p;
     willDriftInYaw := willDriftInYaw p;
     shouldApplyHeadModel := Some v |}.

(** Every member of the pose has been assigned. *)
Definition assigned {A} (o : option A) : bool :=
  match o with Some _ => true | None => false end.

Definition assigned3 (a : array3 (option R)) : bool :=
  assigned (a0 a) && assigned (a1 a) && assigned (a2 a).

Definition assigned_quaternion (q : HmdQuaternion_t) : bool :=
  assigned (qw q) && assigned (qx q) && assigned (qy q) && assigned (qz q).

Definition fully_initialized (p : DriverPose_t) : bool :=
  assigned (poseTimeOffset p) &&
  assigned_quaternion (qWorldFromDriverRotation p) &&
  assigned3 (vecWorldFromDriverTranslation p) &&
  assigned_quaternion (qDriverFromHeadRotation p) &&
  assigned3 (vecDriverFromHeadTranslation p) &&
  assigned3 (vecPosition p) &&
  assigned3 (vecVelocity p) &&
  assigned3 (vecAcceleration p) &&
  assigned_quaternion (qRotation p) &&
  assigned3 (vecAngularVelocity p) &&
  assigned3 (vecAngularAcceleration p) &&
  assigned (result p) &&
  assigned (poseIsValid p) &&
  assigned (willDriftInYaw p) &&
  assigned (shouldApplyHeadModel p).

Definition zero3 : array3 (option R) :=
  Array3 (Some 0%R) (Some 0%R) (Some 0%R).

(** The pose the tracker callback is to publish for a report, apart from
    its position: fully initialized, the report's rotation, zero
    velocities and accelerations, valid. *)
Definition carries_rotation (report : OSVR_PoseReport) (p : DriverPose_t)
  : Prop :=
  fully_initialized p = true /\
  qRotation p =
    {| qw := Some (osvrQuatGetW (rotation report));
       qx := Some (osvrQuatGetX (rotation report));
       qy := Some (osvrQuatGetY (rotation report));
       qz := Some (osvrQuatGetZ (rotation report)) |} /\
  vecVelocity p = zero3 /\
  vecAcceleration p = zero3 /\
  vecAngularVelocity p = zero3 /\
  vecAngularAcceleration p = zero3 /\
  poseIsValid p = Some true.

(** The position of the pose is the report's translation, component by
    component. *)
Definition carries_translation (report : OSVR_PoseReport) (p : DriverPose_t)
  : Prop :=
  vecPosition p = map3 Some (translation report).

(** [vr::DistortionCoordinates_t]: one [float[2]] per colour channel. *)
Record DistortionCoordinates_t := {
  rfRed : R * R;
  rfGreen : R * R;
  rfBlue : R * R
}.

(** ** uint32_t arithmetic *)

Definition wrap32 (n : Z) : Z := n mod 2 ^ 32.

Definition uint32_range (n : Z) : Prop := 0 <= n < 2 ^ 32.

(** ** The client context and its interfaces

    What the devices use of [osvr::clientkit]: a context hands out
    interfaces, an interface can get a callback and can be freed. The
    context is represented by the handles of the interfaces it has handed
    out and not freed yet, and by the handles that have a callback. *)

Module ClientKit.

Record ClientContext := {
  interfaces : list nat;
  callbacks : list nat;
  next_handle : nat
}.

(** An [osvr::clientkit::Interface] object: empty, or holding a handle. *)
Definition Interface := option nat.

Definition notEmpty (i : Interface) : bool :=
  match i with Some _ => true | None => false end.

(** [i.free()]: the interface leaves the context, with its callback, and
    the object becomes empty. *)
Definition free (i : Interface) (c : ClientContext)
  : Interface * ClientContext :=
  match i with
  | Some h =>
      (None,
       {| interfaces := List.remove Nat.eq_dec h (interfaces c);
          callbacks := List.remove Nat.eq_dec h (callbacks c);
          next_handle := next_handle c |})
  | None => (None, c)
  end.

(** [c.getInterface(path)]: a new interface. *)
Definition getInterface (c : ClientContext) : Interface * ClientContext :=
  (Some (next_handle c),
   {| interfaces := next_handle c :: interfaces c;
      callbacks := callbacks c;
      next_handle := S (next_handle c) |}).

(** [i.registerCallback(f, userdata)] *)
Definition registerCallback (i : Interface) (c : ClientContext)
  : ClientContext :=
  match i with
  | Some h =>
      {| interfaces := interfaces c;
         callbacks := h :: callbacks c;
         next_handle := next_handle c |}
  | None => c
  end.

(** A device's tracker interface member and the context it refers to. *)
Record Session := {
  trackerInterface : Interface;
  context : ClientContext
}.

(** A device that has not been activated yet, in a context that has
    handed out [n] interfaces so far, none of them live. *)
Definition fresh (n : nat) : Session :=
  {| trackerInterface := None;
     context := {| interfaces := nil; callbacks := nil; next_handle := n |} |}.

(** [if (i.notEmpty()) { i.free(); }] *)
Definition free_if_notEmpty (s : Session) : Session :=
  if notEmpty (trackerInterface s)
  then let (i, c) := free (trackerInterface s) (context s) in
       {| trackerInterface := i; context := c |}
  else s.

(** [i = c.getInterface("/me/head"); i.registerCallback(..., this);] *)
Definition acquire_and_register (s : Session) : Session :=
  let (i, c) := getInterface (context s) in
  {| trackerInterface := i; context := registerCallback i c |}.

(** The handles an interface object accounts for. *)
Definition held (i : Interface) : list nat :=
  match i with Some h => h :: nil | None => nil end.

(** Nothing is live in the context but the device's own interface, and
    that one has the callback. *)
Definition tidy (s : Session) : Prop :=
  interfaces (context s) = held (trackerInterface s) /\
  callbacks (context s) = held (trackerInterface s).

End ClientKit.

(** ** The single-header device (class OSVRTrackedDevice with its own
       display configuration) *)

Module TrackedDevice.

(** Modelled from the spec: the layout modes of
    [OSVRDisplayConfiguration] (osvr_display_configuration.h is not part
    of the sources). [UNRECOGNIZED n] is any other value of the
    enumeration type, which the [switch] sends to [default]. *)
Inductive DisplayMode :=
| HORIZONTAL_SIDE_BY_SIDE
| VERTICAL_SIDE_BY_SIDE
| FULL_SCREEN
| UNRECOGNIZED (n : Z).

(** The getters of [OSVRDisplayConfiguration] the device calls. *)
Record OSVRDisplayConfiguration := {
  getDisplayMode : DisplayMode;
  getDisplayWidth : Z;
  getDisplayHeight : Z;
  getHorizontalFOVRadians : R;
  getFOVAspectRatio : R;
  getIPDMeters : R
}.

Record OSVRTrackedDevice := {
  m_DisplayConfiguration : OSVRDisplayConfiguration;
  pose_ : DriverPose_t
}.

(** The four out-parameters of [GetEyeOutputViewport]. *)
Record Viewport := {
  x : Z;
  y : Z;
  width : Z;
  height : Z
}.

(** [OSVRTrackedDevice::GetEyeOutputViewport]. The second component
    tells whether the "Unexpected display mode type" line went to
    [std::cerr]. *)
Definition GetEyeOutputViewport (self : OSVRTrackedDevice) (eye : Hmd_Eye)
  : Viewport * bool :=
  let cfg := m_DisplayConfiguration self in
  match getDisplayMode cfg with
  | HORIZONTAL_SIDE_BY_SIDE =>
      let width := wrap32 (Z.quot (getDisplayWidth cfg) 2) in
      let height := wrap32 (getDisplayHeight cfg) in
      let x := if Hmd_Eye_eqb Eye_Left eye then 0 else width in
      let y := 0 in
      ({| x := x; y := y; width := width; height := height |}, false)
  | VERTICAL_SIDE_BY_SIDE =>
      let width := wrap32 (getDisplayWidth cfg) in
      let height := wrap32 (Z.quot (getDisplayHeight cfg) 2) in
      let x := 0 in
      let y := if Hmd_Eye_eqb Eye_Left eye then 0 else height in
      ({| x := x; y := y; width := width; height := height |}, false)
  | FULL_SCREEN =>
      let width := wrap32 (getDisplayWidth cfg) in
      let height := wrap32 (getDisplayHeight cfg) in
      ({| x := 0; y := 0; width := width; height := height |}, false)
  | UNRECOGNIZED _ =>
      let width := wrap32 (getDisplayWidth cfg) in
      let height := wrap32 (getDisplayHeight cfg) in
      ({| x := 0; y := 0; width := width; height := height |}, true)
  end.

(** The pixels of a viewport. *)
Definition in_viewport (v : Viewport) (px py : Z) : bool :=
  (x v <=? px) && (px <? x v + width v) &&
  (y v <=? py) && (py <? y v + height v).

(** The full display rectangle [(0, 0, W, H)]. *)
Definition full_rectangle (W H : Z) : Viewport :=
  {| x := 0; y := 0; width := W; height := H |}.

(** The policy table in the spec's words: size and origin of an eye's
    viewport for each layout mode ([/] is the integer quotient). *)
Definition viewport_policy (mode : DisplayMode) (W H : Z) (eye : Hmd_Eye)
  : Viewport :=
  match mode, eye with
  | HORIZONTAL_SIDE_BY_SIDE, Eye_Left =>
      {| x := 0; y := 0; width := W / 2; height := H |}
  | HORIZONTAL_SIDE_BY_SIDE, Eye_Right =>
      {| x := W / 2; y := 0; width := W / 2; height := H |}
  | VERTICAL_SIDE_BY_SIDE, Eye_Left =>
      {| x := 0; y := 0; width := W; height := H / 2 |}
  | VERTICAL_SIDE_BY_SIDE, Eye_Right =>
      {| x := 0; y := H / 2; width := W; height := H / 2 |}
  | FULL_SCREEN, _ => {| x := 0; y := 0; width := W; height := H |}
  | UNRECOGNIZED _, _ => {| x := 0; y := 0; width := W; height := H |}
  end.

(** Two viewports tile a rectangle: they share no pixel (no overlap) and
    a pixel is in the rectangle exactly when it is in one of them (no
    gap, nothing outside). *)
Definition tiles (l r full : Viewport) : Prop :=
  forall px py : Z,
    (in_viewport l px py && in_viewport r px py = false) /\
    (in_viewport full px py = in_viewport l px py || in_viewport r px py).

(** A device in horizontal side-by-side mode with resolution [(W, H)]. *)
Definition side_by_side (W H : Z) (fov aspect ipd : R) (pose : DriverPose_t)
  : OSVRTrackedDevice :=
  {| m_DisplayConfiguration :=
       {| getDisplayMode := HORIZONTAL_SIDE_BY_SIDE;
          getDisplayWidth := W;
          getDisplayHeight := H;
          getHorizontalFOVRadians := fov;
          getFOVAspectRatio := aspect;
          getIPDMeters := ipd |};
     pose_ := pose |}.

(** [Eigen::Matrix4d], entries by row and column. *)
Definition Matrix4d := nat -> nat -> R.

(** [Eigen::Affine3d(Eigen::Translation3d(Eigen::Vector3d(tx, ty, tz)))]
    as a 4x4 matrix. *)
Definition Translation3d (tx ty tz : R) : Matrix4d :=
  fun i j =>
    if Nat.eqb i j then 1%R
    else if Nat.eqb j 3
         then match i with
              | O => tx
              | S O => ty
              | S (S O) => tz
              | _ => 0%R
              end
         else 0%R.

(** Matrix product. *)
Definition mul4 (A B : Matrix4d) : Matrix4d :=
  fun i j =>
    (A i 0%nat * B 0%nat j + A i 1%nat * B 1%nat j
     + A i 2%nat * B 2%nat j + A i 3%nat * B 3%nat j)%R.

(** [make_projection_matrix] of projection_matrix.h, which is not part
    of the sources; [GetProjectionRaw] is parametric in it. *)
Class ProjectionMatrix := {
  make_projection_matrix : R -> R -> R -> R -> Matrix4d
}.

(** The four out-parameters of [GetProjectionRaw]. *)
Record ProjectionRaw := {
  left : R;
  right : R;
  top : R;
  bottom : R
}.

(** [OSVRTrackedDevice::GetProjectionRaw] *)
Definition GetProjectionRaw `{ProjectionMatrix} (self : OSVRTrackedDevice)
    (eye : Hmd_Eye) : ProjectionRaw :=
  let cfg := m_DisplayConfiguration self in
  let z_near := (1 / 10)%R in
  let z_far := 100%R in
  let center :=
    make_projection_matrix (getHorizontalFOVRadians cfg)
      (getFOVAspectRatio cfg) z_near z_far in
  let eye_translation := (getIPDMeters cfg / 2)%R in
  let eye_translation :=
    if Hmd_Eye_eqb Eye_Left eye then (eye_translation * -1)%R
    else eye_translation in
  let translation := Translation3d eye_translation 0 0 in
  let eye_matrix := mul4 translation center in
  let near :=
    (eye_matrix 2%nat 3%nat / (eye_matrix 2%nat 2%nat - 1))%R in
  let far :=
    (eye_matrix 2%nat 3%nat / (eye_matrix 3%nat 3%nat + 1))%R in
  {| bottom := (near * (eye_matrix 1%nat 2%nat - 1) / eye_matrix 1%nat 1%nat)%R;
     top := (near * (eye_matrix 1%nat 2%nat + 1) / eye_matrix 1%nat 1%nat)%R;
     left := (near * (eye_matrix 0%nat 2%nat - 1) / eye_matrix 0%nat 0%nat)%R;
     right := (near * (eye_matrix 0%nat 2%nat + 1) / eye_matrix 0%nat 0%nat)%R |}.

(** A centre matrix describes a frustum symmetric about the axis between
    the eyes: no horizontal shear in its first row, and a last row
    without a term in x. *)
Definition symmetric_center (c : Matrix4d) : Prop :=
  c 0%nat 2%nat = 0%R /\ c 3%nat 0%nat = 0%R.

(** Two eyes' bounds mirror each other about the centre: left and right
    swap with a change of sign, top and bottom agree. *)
Definition mirrored (l r : ProjectionRaw) : Prop :=
  left l = (- right r)%R /\ right l = (- left r)%R /\
  top l = top r /\ bottom l = bottom r.

(** A perspective matrix of the usual shape, to exercise the projection
    code on. *)
Definition perspective (fov aspect z_near z_far : R) : Matrix4d :=
  fun i j =>
    match i, j with
    | O, O => (1 / tan (fov / 2))%R
    | S O, S O => (aspect / tan (fov / 2))%R
    | S (S O), S (S O) => ((z_far + z_near) / (z_near - z_far))%R
    | S (S O), S (S (S O)) => (2 * z_far * z_near / (z_near - z_far))%R
    | S (S (S O)), S (S O) => (-1)%R
    | _, _ => 0%R
    end.

(** [OSVRTrackedDevice::ComputeDistortion] *)
Definition ComputeDistortion (self : OSVRTrackedDevice) (eye : Hmd_Eye)
    (u v : R) : DistortionCoordinates_t :=
  {| rfRed := (0%R, 0%R);
     rfBlue := (0%R, 0%R);
     rfGreen := (0%R, 0%R) |}.

(** [self->pose_ = pose] *)
Definition set_pose_ (pose : DriverPose_t) (self : OSVRTrackedDevice)
  : OSVRTrackedDevice :=
  {| m_DisplayConfiguration := m_DisplayConfiguration self;
     pose_ := pose |}.

(** [OSVRTrackedDevice::HmdTrackerCallback]. [userdata] is the nullable
    pointer to the device; the result is the device after the call. *)
Definition HmdTrackerCallback (userdata : option OSVRTrackedDevice)
    (report : OSVR_PoseReport) : option OSVRTrackedDevice :=
  match userdata with
  | None => None
  | Some self =>
      let pose := indeterminate_pose in
      let pose := set_poseTimeOffset 0 pose in
      let pose :=
        for3 (fun i pose =>
                upd_vecDriverFromHeadTranslation (set_at i 0)
                  (upd_vecWorldFromDriverTranslation (set_at i 0) pose))
             pose in
      let pose := upd_qWorldFromDriverRotation (set_w 1) pose in
      let pose := upd_qWorldFromDriverRotation (set_x 0) pose in
      let pose := upd_qWorldFromDriverRotation (set_y 0) pose in
      let pose := upd_qWorldFromDriverRotation (set_z 0) pose in
      let pose := upd_qDriverFromHeadRotation (set_w 1) pose in
      let pose := upd_qDriverFromHeadRotation (set_x 0) pose in
      let pose := upd_qDriverFromHeadRotation (set_y 0) pose in
      let pose := upd_qDriverFromHeadRotation (set_z 0) pose in
      let pose :=
        for3 (fun i pose =>
                upd_vecPosition
                  (set_at i (get3 (translation report) 0)) pose)
             pose in
      let pose :=
        for3 (fun i pose =>
                upd_vecAcceleration (set_at i 0)
                  (upd_vecVelocity (set_at i 0) pose))
             pose in
      let pose :=
        upd_qRotation (set_w (osvrQuatGetW (rotation report))) pose in
      let pose :=
        upd_qRotation (set_x (osvrQuatGetX (rotation report))) pose in
      let pose :=
        upd_qRotation (set_y (osvrQuatGetY (rotation report))) pose in
      let pose :=
        upd_qRotation (set_z (osvrQuatGetZ (rotation report))) pose in
      let pose :=
        for3 (fun i pose =>
                upd_vecAngularAcceleration (set_at i 0)
                  (upd_vecAngularVelocity (set_at i 0) pose))
             pose in
      let pose := set_result TrackingResult_Running_OK pose in
      let pose := set_poseIsValid true pose in
      let pose := set_willDriftInYaw true pose in
      let pose := set_shouldApplyHeadModel true pose in
      Some (set_pose_ pose self)
  end.

(** [OSVRTrackedDevice::GetPose] *)
Definition GetPose (self : OSVRTrackedDevice) : DriverPose_t :=
  pose_ self.

(** [OSVRTrackedDevice::GetRecommendedRenderTargetSize]: the two
    out-parameters [width] and [height]. *)
Definition GetRecommendedRenderTargetSize (self : OSVRTrackedDevice)
  : Z * Z :=
  let cfg := m_DisplayConfiguration self in
  (wrap32 (getDisplayWidth cfg), wrap32 (getDisplayHeight cfg)).

(** A device with a given layout mode and resolution. *)
Definition with_layout (mode : DisplayMode) (W H : Z) : OSVRTrackedDevice :=
  {| m_DisplayConfiguration :=
       {| getDisplayMode := mode;
          getDisplayWidth := W;
          getDisplayHeight := H;
          getHorizontalFOVRadians := 1;
          getFOVAspectRatio := 1;
          getIPDMeters := 0 |};
     pose_ := indeterminate_pose |}.

(** A [char] array whose elements may not have been written yet. *)
Definition chars := list (option Ascii.ascii).

Definition NUL : Ascii.ascii := Ascii.zero.

(** [std::strncpy(dst, src, n)]: the first [n] characters of [dst] become
    those of [src], followed by NUL characters when [src] is shorter
    than [n]. *)
Definition strncpy (dst : chars) (src : string) (n : nat) : chars :=
  List.map Some (firstn n (list_ascii_of_string src ++ repeat NUL n))
  ++ skipn n dst.

(** [a[i] = c] *)
Definition set_char (a : chars) (i : nat) (c : Ascii.ascii) : chars :=
  <[i := Some c]> a.

(** [vr::TrackedDeviceDriverInfo_t] *)
Record TrackedDeviceDriverInfo_t := {
  rchTrackingSystemId : chars;
  rchSerialNumber : chars;
  rchModelNumber : chars;
  rchRenderModelName : chars;
  eClass : option ETrackedDeviceClass;
  bDeviceIsConnected : option bool;
  bWillDriftInYaw : option bool;
  bReportsTimeSinceVSync : option bool;
  fSecondsFromVsyncToPhotons : option R;
  fDisplayFrequency : option R
}.

(** [OSVRTrackedDevice::GetId], [GetModelNumber], [GetSerialNumber] *)
Definition GetId : string := "OSVR HMD".
Definition GetModelNumber : string := "OSVR HMD".
Definition GetSerialNumber : string := "0".

(** [OSVRTrackedDevice::GetTrackedDeviceDriverInfo], for character
    arrays of [k_unTrackingStringSize] elements. The local [info] starts
    with nothing written. *)
Definition GetTrackedDeviceDriverInfo (k_unTrackingStringSize : nat)
  : TrackedDeviceDriverInfo_t :=
  let unwritten : chars := repeat None k_unTrackingStringSize in
  let id := strncpy unwritten "OSVR" k_unTrackingStringSize in
  let id := set_char id (k_unTrackingStringSize - 1) NUL in
  let serial := strncpy unwritten GetSerialNumber k_unTrackingStringSize in
  let serial := set_char serial (k_unTrackingStringSize - 1) NUL in
  let model := strncpy unwritten GetModelNumber k_unTrackingStringSize in
  let model := set_char model (k_unTrackingStringSize - 1) NUL in
  let render := set_char unwritten 0 NUL in
  {| rchTrackingSystemId := id;
     rchSerialNumber := serial;
     rchModelNumber := model;
     rchRenderModelName := render;
     eClass := Some TrackedDeviceClass_HMD;
     bDeviceIsConnected := Some true;
     bWillDriftInYaw := Some true;
     bReportsTimeSinceVSync := Some false;
     fSecondsFromVsyncToPhotons := Some 0%R;
     fDisplayFrequency := Some 60%R |}.

(** The C string a character array holds: the characters before the
    first NUL; [None] when an unwritten element or the end of the array
    comes first. *)
Fixpoint c_str (a : chars) : option string :=
  match a with
  | nil => None
  | None :: _ => None
  | Some c :: rest =>
      if Ascii.eqb c NUL then Some EmptyString
      else option_map (String c) (c_str rest)
  end.

(** The first [n] characters of a string. *)
Definition truncated (n : nat) (text : string) : string :=
  string_of_list_ascii (firstn n (list_ascii_of_string text)).

Inductive HmdError :=
| HmdError_None
| HmdError_Unknown
| HmdError_Driver_Failed.

(** [OSVRTrackedDevice::Activate] past its first statement, the
    construction of the display configuration (see
    [Activate_described]): the returned value and the tracker interface
    and context afterwards. *)
Definition Activate (s : ClientKit.Session) : HmdError * ClientKit.Session :=
  let s := ClientKit.free_if_notEmpty s in
  let s := ClientKit.acquire_and_register s in
  (HmdError_None, s).

(** [OSVRTrackedDevice::Deactivate] *)
Definition Deactivate (s : ClientKit.Session) : ClientKit.Session :=
  ClientKit.free_if_notEmpty s.

(** The constructor of [OSVRDisplayConfiguration] applied to the display
    description; [None] when it raises. (osvr_display_configuration.h is
    not part of the sources.) *)
Class DescriptionParser := {
  construct : string -> option OSVRDisplayConfiguration
}.

(** What a call of [Activate] leaves: the value it returned ([None] when
    it was left by an exception), the display configuration pointer
    ([None] is the null pointer) and the tracker interface with its
    context. *)
Record Activated := {
  returned : option HmdError;
  configuration_after : option OSVRDisplayConfiguration;
  session_after : ClientKit.Session
}.

(** [OSVRTrackedDevice::Activate] with its first statement: the display
    configuration is constructed from the description before the tracker
    interface is touched, and an exception of the constructor ends the
    call with nothing assigned. *)
Definition Activate_described `{DescriptionParser}
    (m_DisplayDescription : string)
    (configuration : option OSVRDisplayConfiguration)
    (s : ClientKit.Session) : Activated :=
  match construct m_DisplayDescription with
  | None =>
      {| returned := None;
         configuration_after := configuration;
         session_after := s |}
  | Some constructed =>
      let s := ClientKit.free_if_notEmpty s in
      let s := ClientKit.acquire_and_register s in
      {| returned := Some HmdError_None;
         configuration_after := Some constructed;
         session_after := s |}
  end.

(** A constructor that rejects the empty description and reads any other
    as a side-by-side 1920x1080 display, to exercise the activation on. *)
Definition sample_parser : DescriptionParser :=
  {| construct := fun description =>
       match description with
       | EmptyString => None
       | String _ _ =>
           Some {| getDisplayMode := HORIZONTAL_SIDE_BY_SIDE;
                   getDisplayWidth := 1920;
                   getDisplayHeight := 1080;
                   getHorizontalFOVRadians := 1;
                   getFOVAspectRatio := 1;
                   getIPDMeters := 0 |}
       end |}.

(** The calls the host makes over the life of the device. *)
Inductive call := CallActivate | CallDeactivate.

Definition perform (s : ClientKit.Session) (c : call) : ClientKit.Session :=
  match c with
  | CallActivate => snd (Activate s)
  | CallDeactivate => Deactivate s
  end.

End TrackedDevice.

(** ** The HMD device (class OSVRTrackedHMD) *)

Module TrackedHMD.

(** *** Activation *)

Inductive EVRInitError :=
| VRInitError_None
| VRInitError_Driver_Failed
| VRInitError_Driver_HmdDisplayNotFound.

(** An OSVR display configuration as the client kit reports it: a list
    of viewers, each a list of eyes, each with its number of surfaces. *)
Definition DisplayConfig := list (list nat).

(** A client-kit query either yields a value or raises. *)
Inductive query (A : Type) :=
| Value (a : A)
| Raises.
Arguments Value {A} a.
Arguments Raises {A}.

Definition getNumViewers (d : DisplayConfig) : nat := length d.

(** [getViewer(v).getNumEyes()]; asking about a viewer that does not
    exist raises. *)
Definition getNumEyes (d : DisplayConfig) (v : nat) : query nat :=
  match nth_error d v with
  | Some eyes => Value (length eyes)
  | None => Raises
  end.

(** [getViewer(v).getEye(e).getNumSurfaces()]; asking about a viewer or
    an eye that does not exist raises. *)
Definition getNumSurfaces (d : DisplayConfig) (v e : nat) : query nat :=
  match nth_error d v with
  | Some eyes =>
      match nth_error eyes e with
      | Some n => Value n
      | None => Raises
      end
  | None => Raises
  end.

Definition test {A} (p : A -> bool) (q : query A) : query bool :=
  match q with
  | Value a => Value (p a)
  | Raises => Raises
  end.

(** [a && b]: [b] is evaluated only when [a] is true. *)
Definition and_then (a b : query bool) : query bool :=
  match a with
  | Value true => b
  | Value false => Value false
  | Raises => Raises
  end.

(** [a || b]: [b] is evaluated only when [a] is false. *)
Definition or_else (a b : query bool) : query bool :=
  match a with
  | Value true => Value true
  | Value false => b
  | Raises => Raises
  end.

Definition neq (n m : nat) : bool := negb (Nat.eqb n m).

(** The condition of the [if] under "Verify valid display config". *)
Definition unexpected_display_parameters (d : DisplayConfig) : query bool :=
  and_then (Value (neq (getNumViewers d) 1))
    (and_then (test (fun n => neq n 2) (getNumEyes d 0))
       (and_then (test (fun n => Nat.eqb n 1) (getNumSurfaces d 0 0))
          (test (fun n => neq n 1) (getNumSurfaces d 0 1)))).

(** The body of that [if]: [Some e] when it returns [e], [None] when
    control falls through. *)
Definition report_display_parameters (d : DisplayConfig)
  : query (option EVRInitError) :=
  if Nat.ltb (getNumViewers d) 1
  then Value (Some VRInitError_Driver_HmdDisplayNotFound)
  else
    match getNumEyes d 0 with
    | Raises => Raises
    | Value eyes =>
        if Nat.ltb eyes 2
        then Value (Some VRInitError_Driver_HmdDisplayNotFound)
        else
          match
            or_else (test (fun n => Nat.ltb n 1) (getNumSurfaces d 0 0))
                    (test (fun n => Nat.ltb n 1) (getNumSurfaces d 0 1))
          with
          | Raises => Raises
          | Value true => Value (Some VRInitError_Driver_HmdDisplayNotFound)
          | Value false => Value None
          end
    end.

(** What the activation sees of its surroundings: whether the context
    and the display report ready before the five-second timeout, and the
    display configuration obtained from the context. *)
Record Environment := {
  context_started : bool;
  display_started : bool;
  displayConfig_ : DisplayConfig
}.

(** [OSVRTrackedHMD::Activate]: the value it returns, or [Raises] when a
    client-kit query of the display checks raises. The two polling loops
    return [VRInitError_Driver_Failed] on a timeout. After the display
    checks the callback is registered and the render-manager
    configuration read; parse errors are caught and logged, and the
    proximity sensor call returns nothing, so that last part always ends
    in [VRInitError_None]. The base-class [Activate] (its result is
    discarded) is left out, and so is [configureDistortionParameters],
    which runs between the two waits: [Activate_with_setup] has it. *)
Definition Activate (env : Environment) : query EVRInitError :=
  if negb (context_started env) then Value VRInitError_Driver_Failed
  else if negb (display_started env) then Value VRInitError_Driver_Failed
  else
    let d := displayConfig_ env in
    match unexpected_display_parameters d with
    | Raises => Raises
    | Value true =>
        match report_display_parameters d with
        | Raises => Raises
        | Value (Some e) => Value e
        | Value None => Value VRInitError_None
        end
    | Value false => Value VRInitError_None
    end.

(** The display configuration is invalid: no viewer, or a viewer with
    fewer than two eyes, or an eye without a surface. *)
Definition invalid_display (d : DisplayConfig) : bool :=
  match d with
  | nil => true
  | eyes :: _ =>
      match eyes with
      | s0 :: s1 :: _ => Nat.eqb s0 0 || Nat.eqb s1 0
      | _ => true
      end
  end.

(** *** Distortion *)

(** The parts of RenderManager the distortion code calls. *)
Class RenderKit := {
  DistortionParameters : Type;
  UnstructuredMeshInterpolators : Type;
  DistortionCorrectTextureCoordinate :
    nat -> R * R -> DistortionParameters -> nat -> R ->
    UnstructuredMeshInterpolators -> R * R
}.

Record Distortion `{RenderKit} := {
  distortionParameters_ : list DistortionParameters;
  overfillFactor_ : R;
  leftEyeInterpolators_ : UnstructuredMeshInterpolators;
  rightEyeInterpolators_ : UnstructuredMeshInterpolators
}.

(** [static_cast<size_t>(eye)] *)
Definition size_t_of_eye (eye : Hmd_Eye) : nat :=
  match eye with
  | Eye_Left => 0
  | Eye_Right => 1
  end.

Definition COLOR_RED : nat := 0.
Definition COLOR_GREEN : nat := 1.
Definition COLOR_BLUE : nat := 2.

(** [OSVRTrackedHMD::ComputeDistortion]; [None] when
    [distortionParameters_] has no entry for the eye. *)
Definition ComputeDistortion `{RenderKit} (self : Distortion)
    (eye : Hmd_Eye) (u v : R) : option DistortionCoordinates_t :=
  let osvr_eye := size_t_of_eye eye in
  match nth_error (distortionParameters_ self) osvr_eye with
  | None => None
  | Some distortion_parameters =>
      let in_coords := (u, (1 - v)%R) in
      let interpolators :=
        if Hmd_Eye_eqb Eye_Right eye then rightEyeInterpolators_ self
        else leftEyeInterpolators_ self in
      let coords_red :=
        DistortionCorrectTextureCoordinate osvr_eye in_coords
          distortion_parameters COLOR_RED (overfillFactor_ self)
          interpolators in
      let coords_green :=
        DistortionCorrectTextureCoordinate osvr_eye in_coords
          distortion_parameters COLOR_GREEN (overfillFactor_ self)
          interpolators in
      let coords_blue :=
        DistortionCorrectTextureCoordinate osvr_eye in_coords
          distortion_parameters COLOR_BLUE (overfillFactor_ self)
          interpolators in
      Some {| rfRed := (fst coords_red, (1 - snd coords_red)%R);
              rfGreen := (fst coords_green, (1 - snd coords_green)%R);
              rfBlue := (fst coords_blue, (1 - snd coords_blue)%R) |}
  end.

(** The mesh that belongs to an eye. *)
Definition eye_interpolators `{RenderKit} (self : Distortion) (eye : Hmd_Eye)
  : UnstructuredMeshInterpolators :=
  match eye with
  | Eye_Left => leftEyeInterpolators_ self
  | Eye_Right => rightEyeInterpolators_ self
  end.

(** The contract in the spec's words: flip V, interpolate each channel
    against the eye's mesh, flip V back. [interpolate c] is the
    interpolation for channel [c]. *)
Definition flip_v (uv : R * R) : R * R := (fst uv, (1 - snd uv)%R).

Definition distortion_contract (interpolate : nat -> R * R -> R * R)
    (u v : R) : DistortionCoordinates_t :=
  {| rfRed := flip_v (interpolate COLOR_RED (flip_v (u, v)));
     rfGreen := flip_v (interpolate COLOR_GREEN (flip_v (u, v)));
     rfBlue := flip_v (interpolate COLOR_BLUE (flip_v (u, v))) |}.

(** *** Tracker callback *)

(** The members the callback touches; [driverHost_] is represented by
    the [TrackedDevicePoseUpdated] calls it has received, latest
    first. *)
Record Tracking := {
  pose_ : DriverPose_t;
  objectId_ : Z;
  driverHost_ : list (Z * DriverPose_t)
}.

Definition some_quaternion (w x y z : R) : HmdQuaternion_t :=
  {| qw := Some w; qx := Some x; qy := Some y; qz := Some z |}.

(** [Eigen::Vector3d::Zero()] written through a map *)
Definition Vector3d_Zero : array3 (option R) :=
  Array3 (Some 0%R) (Some 0%R) (Some 0%R).

(** [Eigen::Quaterniond::Identity()] written through a map *)
Definition Quaterniond_Identity : HmdQuaternion_t :=
  some_quaternion 1 0 0 0.

(** [osvr::util::vecMap] written through a map *)
Definition vecMap (v : array3 R) : array3 (option R) := map3 Some v.

(** [osvr::util::fromQuat] written through a map *)
Definition fromQuat (q : OSVR_Quaternion) : HmdQuaternion_t :=
  some_quaternion (osvrQuatGetW q) (osvrQuatGetX q) (osvrQuatGetY q)
    (osvrQuatGetZ q).

(** [OSVRTrackedHMD::HmdTrackerCallback] *)
Definition HmdTrackerCallback (userdata : option Tracking)
    (report : OSVR_PoseReport) : option Tracking :=
  match userdata with
  | None => None
  | Some self =>
      let pose := indeterminate_pose in
      let pose := set_poseTimeOffset 0 pose in
      let pose :=
        upd_vecWorldFromDriverTranslation (fun _ => Vector3d_Zero) pose in
      let pose :=
        upd_vecDriverFromHeadTranslation (fun _ => Vector3d_Zero) pose in
      let pose :=
        upd_qWorldFromDriverRotation (fun _ => Quaterniond_Identity) pose in
      let pose :=
        upd_qDriverFromHeadRotation (fun _ => Quaterniond_Identity) pose in
      let pose :=
        upd_vecPosition (fun _ => vecMap (translation report)) pose in
      let pose := upd_vecVelocity (fun _ => Vector3d_Zero) pose in
      let pose := upd_vecAcceleration (fun _ => Vector3d_Zero) pose in
      let pose := upd_qRotation (fun _ => fromQuat (rotation report)) pose in
      let pose := upd_vecAngularVelocity (fun _ => Vector3d_Zero) pose in
      let pose := upd_vecAngularAcceleration (fun _ => Vector3d_Zero) pose in
      let pose := set_result TrackingResult_Running_OK pose in
      let pose := set_poseIsValid true pose in
      let pose := set_willDriftInYaw true pose in
      let pose := set_shouldApplyHeadModel true pose in
      Some {| pose_ := pose;
              objectId_ := objectId_ self;
              driverHost_ := (objectId_ self, pose) :: driverHost_ self |}
  end.

(** *** Display configuration *)

Inductive Rotation := Zero | Ninety | OneEighty | TwoSeventy.

(** Modelled from the spec: [osvr::display::Display] (display/Display.h
    is not part of the sources), with the members [configure] reads and
    writes. *)
Record Display := {
  adapter_description : string;
  name : string;
  size_width : Z;
  size_height : Z;
  position_x : Z;
  position_y : Z;
  rotation : Rotation;
  verticalRefreshRate : R;
  attachedToDesktop : bool;
  edidVendorId : Z;
  edidProductId : Z
}.

(** [s.find(needle)]: the position of the first occurrence of [needle]
    in [s]; [None] is [std::string::npos]. *)
Fixpoint find (s needle : string) : option nat :=
  if String.prefix needle s then Some O
  else
    match s with
    | EmptyString => None
    | String _ rest => option_map S (find rest needle)
    end.

(** [s] contains [needle] as a substring. *)
Definition contains (s needle : string) : Prop :=
  exists before after : string,
    s = String.append before (String.append needle after).

(** The loop over the detected displays: the first display whose name
    contains [display_name], if there is one. *)
Fixpoint detect (displays : list Display) (display_name : string)
  : option Display :=
  match displays with
  | nil => None
  | display :: others =>
      match find (name display) display_name with
      | None => detect others display_name
      | Some _ => Some display
      end
  end.

(** The member assignments of the [if (!display_found)] block. *)
Definition default_display : Display :=
  {| adapter_description := "Unknown";
     name := "OSVR HDK";
     size_width := 1920;
     size_height := 1080;
     position_x := 1920;
     position_y := 0;
     rotation := Zero;
     verticalRefreshRate := 60;
     attachedToDesktop := true;
     edidVendorId := 0xd24e;
     edidProductId := 0x1019 |}.

(** Two displays to exercise [configure] on: a desktop monitor and a
    headset panel. *)
Definition desktop_monitor : Display :=
  {| adapter_description := "Primary adapter";
     name := "DELL U2412M";
     size_width := 1920;
     size_height := 1200;
     position_x := 0;
     position_y := 0;
     rotation := Zero;
     verticalRefreshRate := 60;
     attachedToDesktop := true;
     edidVendorId := 0x10ac;
     edidProductId := 0xa07b |}.

Definition headset_panel : Display :=
  {| adapter_description := "Primary adapter";
     name := "Sensics OSVR HDK 1.3";
     size_width := 1080;
     size_height := 1920;
     position_x := 1920;
     position_y := 0;
     rotation := Ninety;
     verticalRefreshRate := 60;
     attachedToDesktop := true;
     edidVendorId := 0xd24e;
     edidProductId := 0x1019 |}.

(** [OSVRTrackedHMD::configure]: the value of [display_] afterwards,
    given the [displayName] setting and the displays
    [osvr::display::getDisplays()] returns. *)
Definition configure (display_name : string) (displays : list Display)
  : Display :=
  match detect displays display_name with
  | Some display => display
  | None => default_display
  end.

(** What [configureDistortionParameters] uses of the parsed display
    descriptor and of RenderManager: the number of eyes of the
    descriptor, the constructor of the distortion parameters of an eye,
    the assignment to [m_desiredTriangles], and
    [makeUnstructuredMeshInterpolators] with its success flag and the
    interpolators it leaves in its out-parameter. *)
Class DistortionSetup `{RenderKit} := {
  OSVRDisplayConfiguration : Type;
  getEyes_size : OSVRDisplayConfiguration -> nat;
  make_DistortionParameters :
    OSVRDisplayConfiguration -> nat -> DistortionParameters;
  set_desiredTriangles : nat -> DistortionParameters -> DistortionParameters;
  makeUnstructuredMeshInterpolators :
    DistortionParameters -> nat -> UnstructuredMeshInterpolators ->
    bool * UnstructuredMeshInterpolators
}.

(** [OSVRTrackedHMD::configureDistortionParameters], given the parsed
    descriptor: the distortion members afterwards; [None] when
    [distortionParameters_] has no entry 0 or 1 to build the meshes
    from. *)
Definition configureDistortionParameters `{DistortionSetup}
    (displayConfiguration_ : OSVRDisplayConfiguration) (self : Distortion)
  : option Distortion :=
  let pushed :=
    fold_left
      (fun parameters i =>
         let distortion :=
           make_DistortionParameters displayConfiguration_ i in
         let distortion := set_desiredTriangles (200 * 64) distortion in
         parameters ++ distortion :: nil)
      (seq 0 (getEyes_size displayConfiguration_))
      (distortionParameters_ self) in
  match nth_error pushed 0, nth_error pushed 1 with
  | Some for_left, Some for_right =>
      Some {| distortionParameters_ := pushed;
              overfillFactor_ := overfillFactor_ self;
              leftEyeInterpolators_ :=
                snd (makeUnstructuredMeshInterpolators for_left 0
                       (leftEyeInterpolators_ self));
              rightEyeInterpolators_ :=
                snd (makeUnstructuredMeshInterpolators for_right 1
                       (rightEyeInterpolators_ self)) |}
  | _, _ => None
  end.

(** A RenderManager stand-in that leaves coordinates alone, to exercise
    the distortion code on. *)
Definition no_distortion : RenderKit :=
  {| DistortionParameters := unit;
     UnstructuredMeshInterpolators := unit;
     DistortionCorrectTextureCoordinate := fun _ in_coords _ _ _ _ =>
                                             in_coords |}.

Definition no_distortion_members : @Distortion no_distortion :=
  @Build_Distortion no_distortion (tt :: tt :: nil) 1 tt tt.

(** The same with parameters for the left eye only. *)
Definition no_distortion_left_only : @Distortion no_distortion :=
  @Build_Distortion no_distortion (tt :: nil) 1 tt tt.

(** A stand-in for RenderManager and the descriptor in which one can see
    where parameters come from: a descriptor is a number and its count of
    eyes, the parameters of an eye record the descriptor, the eye and the
    desired triangles, a mesh records the descriptor it was built for. *)
Definition traced_kit : RenderKit :=
  {| DistortionParameters := nat * nat * nat;
     UnstructuredMeshInterpolators := option nat;
     DistortionCorrectTextureCoordinate := fun _ in_coords _ _ _ _ =>
                                             in_coords |}.

Definition traced_setup : @DistortionSetup traced_kit :=
  @Build_DistortionSetup traced_kit (nat * nat)
    (fun descriptor => snd descriptor)
    (fun descriptor eye => (fst descriptor, eye, O))
    (fun triangles parameters =>
       (fst (fst parameters), snd (fst parameters), triangles))
    (fun parameters _ _ => (true, Some (fst (fst parameters)))).

Definition traced_unconfigured : @Distortion traced_kit :=
  @Build_Distortion traced_kit nil 1 None None.

(** The members after a set-up from descriptor 1 with two eyes. *)
Definition traced_configured : @Distortion traced_kit :=
  @Build_Distortion traced_kit
    ((1%nat, 0%nat, (200 * 64)%nat) :: (1%nat, 1%nat, (200 * 64)%nat) :: nil)
    1 (Some 1%nat) (Some 1%nat).

(** *** Window bounds and render target size *)

(** Which of [OSVR_WINDOWS] and [OSVR_MACOSX] the build defines. *)
Inductive Platform := OSVR_WINDOWS | OSVR_MACOSX | OSVR_OTHER.

(** What [GetWindowBounds] reads: the dimensions of display input 0, the
    window position of the render-manager configuration, and
    [display_]. *)
Record WindowInputs := {
  displayDims_width : Z;
  displayDims_height : Z;
  getWindowXPosition : Z;
  getWindowYPosition : Z;
  display_ : Display
}.

(** The four out-parameters of [GetWindowBounds]. *)
Record WindowBounds := {
  window_x : Z;
  window_y : Z;
  window_width : Z;
  window_height : Z
}.

(** [OSVRTrackedHMD::GetWindowBounds] *)
Definition GetWindowBounds (platform : Platform) (self : WindowInputs)
  : WindowBounds :=
  let x := getWindowXPosition self in
  let y := getWindowYPosition self in
  let width := wrap32 (displayDims_width self) in
  let height := wrap32 (displayDims_height self) in
  match platform with
  | OSVR_WINDOWS | OSVR_MACOSX =>
      {| window_x := position_x (display_ self);
         window_y := position_y (display_ self);
         window_height := wrap32 (size_height (display_ self));
         window_width := wrap32 (size_width (display_ self)) |}
  | OSVR_OTHER =>
      {| window_x := x; window_y := y;
         window_width := width; window_height := height |}
  end.

(** [static_cast<uint32_t>(x)] for a [double]: the fraction is dropped. *)
Definition truncate (x : R) : Z :=
  if Rle_dec 0 x then Int_part x else (- Int_part (- x))%Z.

Definition static_cast_uint32 (x : R) : Z := wrap32 (truncate x).

(** [OSVRTrackedHMD::GetRecommendedRenderTargetSize] *)
Definition GetRecommendedRenderTargetSize (platform : Platform)
    (self : WindowInputs) : Z * Z :=
  let overfill_factor := 1%R in
  let bounds := GetWindowBounds platform self in
  let w := window_width bounds in
  let h := window_height bounds in
  (static_cast_uint32 (IZR w * overfill_factor),
   static_cast_uint32 (IZR h * overfill_factor)).

(** How a call of [Activate] can end: it returns a value, it is left by
    an exception, or it runs into the unchecked indexing of
    [configureDistortionParameters]. *)
Inductive activation :=
| Returns (e : EVRInitError)
| Throws
| OutOfRange.

(** [OSVRTrackedHMD::Activate] with the distortion set-up it performs
    between the two waits. [descriptor] is what the constructor of
    [OSVRDisplayConfiguration] makes of the "/display" parameter, [None]
    when it raises; [self] holds the distortion members before the
    call. *)
Definition Activate_with_setup `{DistortionSetup} (env : Environment)
    (descriptor : option OSVRDisplayConfiguration) (self : Distortion)
  : activation :=
  if negb (context_started env) then Returns VRInitError_Driver_Failed
  else
    match descriptor with
    | None => Throws
    | Some displayConfiguration_ =>
        match configureDistortionParameters displayConfiguration_ self with
        | None => OutOfRange
        | Some _ =>
            if negb (display_started env)
            then Returns VRInitError_Driver_Failed
            else
              let d := displayConfig_ env in
              match unexpected_display_parameters d with
              | Raises => Throws
              | Value true =>
                  match report_display_parameters d with
                  | Raises => Throws
                  | Value (Some e) => Returns e
                  | Value None => Returns VRInitError_None
                  end
              | Value false => Returns VRInitError_None
              end
        end
    end.

(** The tracker calling the registered callback for one report after the
    other, with the device as user data. *)
Fixpoint deliver (self : Tracking) (reports : list OSVR_PoseReport)
  : Tracking :=
  match reports with
  | nil => self
  | report :: later =>
      match HmdTrackerCallback (Some self) report with
      | Some self' => deliver self' later
      | None => self
      end
  end.

(** An update the driver host received is the one for a report: it names
    the device and its pose carries the report. *)
Definition update_for (id : Z) (report : OSVR_PoseReport)
    (update : Z * DriverPose_t) : Prop :=
  fst update = id /\
  carries_rotation report (snd update) /\
  carries_translation report (snd update).

(** The two polling loops of [Activate]. A poll is what one round of the
    loop observes: the answer of [checkStatus()] (or [checkStartup()])
    and, after the [update()] of a round that finds it false, the clock.
    The loop ends ready, ends with a timeout, or is still polling when
    the observations run out. *)
Inductive waiting := Ready | TimedOut | StillPolling.

Definition waitTime : Z := 5.

Fixpoint wait_until_started (startTime : Z) (polls : list (bool * Z))
  : waiting :=
  match polls with
  | nil => StillPolling
  | (started, now) :: later =>
      if started then Ready
      else if now >? startTime + waitTime then TimedOut
      else wait_until_started startTime later
  end.

(** A round that neither ends the wait nor times out. *)
Definition keeps_polling (startTime : Z) (poll : bool * Z) : Prop :=
  fst poll = false /\ snd poll <= startTime + waitTime.

(** [OSVRTrackedHMD::Activate] with the tracker interface: the value of
    [Activate] together with the interface member and the context when
    the call ends. The interface is freed first; it is acquired and the
    callback registered only after the display checks. *)
Definition Activate_tracking (env : Environment) (s : ClientKit.Session)
  : query EVRInitError * ClientKit.Session :=
  let s := ClientKit.free_if_notEmpty s in
  if negb (context_started env) then (Value VRInitError_Driver_Failed, s)
  else if negb (display_started env) then (Value VRInitError_Driver_Failed, s)
  else
    let d := displayConfig_ env in
    match unexpected_display_parameters d with
    | Raises => (Raises, s)
    | Value true =>
        match report_display_parameters d with
        | Raises => (Raises, s)
        | Value (Some e) => (Value e, s)
        | Value None =>
            (Value VRInitError_None, ClientKit.acquire_and_register s)
        end
    | Value false =>
        (Value VRInitError_None, ClientKit.acquire_and_register s)
    end.

(** [OSVRTrackedHMD::Deactivate] *)
Definition Deactivate (s : ClientKit.Session) : ClientKit.Session :=
  ClientKit.free_if_notEmpty s.

End TrackedHMD.

(** * Properties *)

(** ** Property store *)

Section PropertyStoreProperties.
Import PropertyStore.
Context {PP : PropertyProperties}.
Variable self : OSVRTrackedDevice.

Lemma boost_get_to_variant (T : PropertyKind) (v : cpp_type T) :
  boost_get T (to_variant T v) = Some v.
Proof. destruct T; reflexivity. Qed.

Lemma boost_get_Some (T : PropertyKind) (stored : PropertyValue)
    (v : cpp_type T) :
  boost_get T stored = Some v <-> stored = to_variant T v.
Proof.
  split.
  - destruct T, stored; simpl; intros E; try discriminate;
      injection E as ->; reflexivity.
  - intros ->. apply boost_get_to_variant.
Qed.

(** [checkProperty] tests the data type first, then the device class,
    then the validity of the device. *)
Lemma checkProperty_order (T : PropertyKind) (prop : ETrackedDeviceProperty) :
  checkProperty self T prop =
    if isWrongDataType prop T then TrackedProp_WrongDataType
    else if isWrongDeviceClass prop (deviceClass_ self)
    then TrackedProp_WrongDeviceClass
    else match deviceClass_ self with
         | TrackedDeviceClass_Invalid => TrackedProp_InvalidDevice
         | _ => TrackedProp_Success
         end.
Proof.
  unfold checkProperty.
  destruct (isWrongDataType prop T); [reflexivity|].
  destruct (isWrongDeviceClass prop (deviceClass_ self)); [reflexivity|].
  destruct (deviceClass_ self); reflexivity.
Qed.

(** A failed check ends the call: the check's error is stored when the
    pointer is not null and the default comes back. *)
Lemma get_failed_check (T : PropertyKind) (prop : ETrackedDeviceProperty)
    (error : pointer) (dflt : cpp_type T) :
  checkProperty self T prop <> TrackedProp_Success ->
  GetTrackedDeviceProperty self T prop error dflt =
    bind (store_if_nonnull error (checkProperty self T prop))
         (fun _ => ret dflt).
Proof.
  unfold GetTrackedDeviceProperty.
  destruct (checkProperty self T prop); congruence.
Qed.

Lemma get_passed_check (T : PropertyKind) (prop : ETrackedDeviceProperty)
    (error : pointer) (dflt : cpp_type T) :
  checkProperty self T prop = TrackedProp_Success ->
  GetTrackedDeviceProperty self T prop error dflt =
    match properties_ self !! prop with
    | Some stored =>
        bind (store_if_nonnull error TrackedProp_Success)
             (fun _ => match boost_get T stored with
                       | Some v => ret v
                       | None => throw_bad_get
                       end)
    | None =>
        bind (store_if_nonnull error TrackedProp_ValueNotProvidedByDevice)
             (fun _ => ret dflt)
    end.
Proof.
  unfold GetTrackedDeviceProperty. intros ->. reflexivity.
Qed.


(** When the stored variant does not hold a [T], [boost::get] raises
    after Success has been stored. *)
Lemma get_bad_get (T : PropertyKind) (prop : ETrackedDeviceProperty)
    (a : nat) (dflt : cpp_type T) (m : gmap nat ETrackedPropertyError)
    (stored : PropertyValue) :
  checkProperty self T prop = TrackedProp_Success ->
  properties_ self !! prop = Some stored ->
  boost_get T stored = None ->
  GetTrackedDeviceProperty self T prop (ptr a) dflt m =
    BadGet (<[a := TrackedProp_Success]> m).
Proof.
  intros C L B. rewrite get_passed_check by exact C.
  rewrite L. unfold bind. simpl. rewrite B. reflexivity.
Qed.

Lemma success_or_not (e : ETrackedPropertyError) :
  e = TrackedProp_Success \/ e <> TrackedProp_Success.
Proof. destruct e; (left; reflexivity) || (right; discriminate). Qed.

(** With a null error pointer nothing is stored. *)
Lemma store_if_nonnull_null (e : ETrackedPropertyError)
    (m : gmap nat ETrackedPropertyError) :
  store_if_nonnull nullptr e m = Returned tt m.
Proof. reflexivity. Qed.

Lemma store_if_nonnull_ptr (a : nat) (e : ETrackedPropertyError)
    (m : gmap nat ETrackedPropertyError) :
  store_if_nonnull (ptr a) e m = Returned tt (<[a := e]> m).
Proof. reflexivity. Qed.

(** C9. A null error pointer is safe: the getter never writes through
    it, leaves the memory as it was, and yields the value (or raises)
    exactly as it does with a non-null pointer. *)
Theorem get_null_error_pointer (T : PropertyKind)
    (prop : ETrackedDeviceProperty) (a : nat) (dflt : cpp_type T)
    (m : gmap nat ETrackedPropertyError) :
  match GetTrackedDeviceProperty self T prop nullptr dflt m,
        GetTrackedDeviceProperty self T prop (ptr a) dflt m with
  | Returned v m0, Returned v' _ => v = v' /\ m0 = m
  | BadGet m0, BadGet _ => m0 = m
  | _, _ => False
  end.
Proof.
  destruct (success_or_not (checkProperty self T prop)) as [C|C].
  - rewrite !get_passed_check by exact C.
    destruct (properties_ self !! prop) as [stored|].
    + unfold bind. rewrite store_if_nonnull_null, store_if_nonnull_ptr.
      destruct (boost_get T stored); simpl; auto.
    + unfold bind. rewrite store_if_nonnull_null, store_if_nonnull_ptr.
      simpl. auto.
  - rewrite !get_failed_check by exact C.
    unfold bind. rewrite store_if_nonnull_null, store_if_nonnull_ptr.
    simpl. auto.
Qed.

End PropertyStoreProperties.

Section PropertyStoreExamples.
Import PropertyStore.

(** Asking for an [int32] where the property is a float gives
    WrongDataType although a value is stored. *)
Example get_int32_of_float :
  @GetTrackedDeviceProperty sample_properties sample_hmd K_int32
    Prop_UserIpdMeters_Float (ptr 0) 7 ∅ =
  Returned 7 (<[0%nat := TrackedProp_WrongDataType]> ∅).
Proof. reflexivity. Qed.

(** A property that was never written gives the default and
    ValueNotProvidedByDevice. *)
Example get_never_written :
  @GetTrackedDeviceProperty sample_properties sample_hmd K_float
    Prop_DisplayFrequency_Float (ptr 0) 90%R ∅ =
  Returned 90%R (<[0%nat := TrackedProp_ValueNotProvidedByDevice]> ∅).
Proof. reflexivity. Qed.



End PropertyStoreExamples.


(** ** Eye viewports *)

Section ViewportProperties.
Import TrackedDevice.

Lemma wrap32_id (n : Z) : uint32_range n -> wrap32 n = n.
Proof. unfold uint32_range, wrap32. intros R. apply Z.mod_small. lia. Qed.

Lemma half_range (n : Z) : uint32_range n -> uint32_range (n / 2).
Proof.
  unfold uint32_range. intros R. split.
  - apply Z.div_pos; lia.
  - apply Z.le_lt_trans with n; [|lia].
    apply Z.div_le_upper_bound; lia.
Qed.

Lemma wrap32_half (n : Z) : uint32_range n -> wrap32 (Z.quot n 2) = n / 2.
Proof.
  intros R. rewrite Z.quot_div_nonneg by (unfold uint32_range in R; lia).
  apply wrap32_id, half_range, R.
Qed.

(** C3. For a resolution [(W, H)] within [uint32_t], the viewport the
    code computes for an eye is the entry of the policy table for the
    layout mode: half width side by side, half height one above the
    other, the full display for full-screen and for any other mode. *)
Theorem viewport_follows_policy (self : OSVRTrackedDevice) (eye : Hmd_Eye) :
  let cfg := m_DisplayConfiguration self in
  uint32_range (getDisplayWidth cfg) ->
  uint32_range (getDisplayHeight cfg) ->
  fst (GetEyeOutputViewport self eye) =
    viewport_policy (getDisplayMode cfg) (getDisplayWidth cfg)
      (getDisplayHeight cfg) eye.
Proof.
  intros cfg RW RH. subst cfg. unfold GetEyeOutputViewport.
  destruct (getDisplayMode (m_DisplayConfiguration self)), eye; simpl;
    rewrite ?(wrap32_half _ RW), ?(wrap32_half _ RH),
            ?(wrap32_id _ RW), ?(wrap32_id _ RH);
    reflexivity.
Qed.

Lemma viewport_follows_policy_witness :
  fst (GetEyeOutputViewport
         (side_by_side 1920 1080 1 1 0 indeterminate_pose) Eye_Right) =
    {| x := 960; y := 0; width := 960; height := 1080 |}.
Proof.
  apply (viewport_follows_policy
           (side_by_side 1920 1080 1 1 0 indeterminate_pose) Eye_Right);
    unfold uint32_range; simpl; lia.
Defined.

(** Only an unrecognised mode writes the diagnostic. *)
Lemma viewport_diagnostic (self : OSVRTrackedDevice) (eye : Hmd_Eye) :
  snd (GetEyeOutputViewport self eye) =
    match getDisplayMode (m_DisplayConfiguration self) with
    | UNRECOGNIZED _ => true
    | _ => false
    end.
Proof.
  unfold GetEyeOutputViewport.
  destruct (getDisplayMode (m_DisplayConfiguration self)); reflexivity.
Qed.

(** Side by side, the two viewports are disjoint and cover the columns
    [0 .. 2 * (W / 2)) of every row. *)
Lemma side_by_side_tiles_even_part (self : OSVRTrackedDevice) :
  let cfg := m_DisplayConfiguration self in
  getDisplayMode cfg = HORIZONTAL_SIDE_BY_SIDE ->
  uint32_range (getDisplayWidth cfg) ->
  uint32_range (getDisplayHeight cfg) ->
  tiles (fst (GetEyeOutputViewport self Eye_Left))
        (fst (GetEyeOutputViewport self Eye_Right))
        (full_rectangle (2 * (getDisplayWidth cfg / 2))
           (getDisplayHeight cfg)).
Proof.
  intros cfg MODE RW RH px py.
  unfold GetEyeOutputViewport. fold cfg. rewrite MODE. simpl.
  rewrite (wrap32_half _ RW), (wrap32_id _ RH).
  generalize (getDisplayWidth cfg) (getDisplayHeight cfg). intros W H.
  unfold in_viewport; simpl.
  split.
  - destruct (0 <=? px) eqn:E1, (px <? 0 + W / 2) eqn:E2,
      (W / 2 <=? px) eqn:E3, (px <? W / 2 + W / 2) eqn:E4,
      (0 <=? py), (py <? 0 + H); simpl; try reflexivity; lia.
  - destruct (0 <=? px) eqn:E1, (px <? 0 + W / 2) eqn:E2,
      (W / 2 <=? px) eqn:E3, (px <? W / 2 + W / 2) eqn:E4,
      (px <? 0 + 2 * (W / 2)) eqn:E5,
      (0 <=? py), (py <? 0 + H); simpl; try reflexivity; lia.
Qed.

(** C4, amended. For a resolution [(W, H)] with an even width, in
    horizontal side-by-side mode the left and right viewports are
    disjoint and their union is exactly the rectangle [(0, 0, W, H)]. *)
Theorem side_by_side_tiles_even (self : OSVRTrackedDevice) :
  let cfg := m_DisplayConfiguration self in
  getDisplayMode cfg = HORIZONTAL_SIDE_BY_SIDE ->
  uint32_range (getDisplayWidth cfg) ->
  uint32_range (getDisplayHeight cfg) ->
  Z.even (getDisplayWidth cfg) = true ->
  tiles (fst (GetEyeOutputViewport self Eye_Left))
        (fst (GetEyeOutputViewport self Eye_Right))
        (full_rectangle (getDisplayWidth cfg) (getDisplayHeight cfg)).
Proof.
  intros cfg MODE RW RH EV.
  assert (2 * (getDisplayWidth cfg / 2) = getDisplayWidth cfg) as D.
  { apply Z.even_spec in EV. destruct EV as [k ->].
    rewrite (Z.mul_comm 2 k), Z.div_mul by lia. lia. }
  pose proof (side_by_side_tiles_even_part self MODE RW RH) as P.
  fold cfg in P. rewrite D in P. exact P.
Qed.

Lemma side_by_side_tiles_even_witness :
  tiles
    (fst (GetEyeOutputViewport
            (side_by_side 1920 1080 1 1 0 indeterminate_pose) Eye_Left))
    (fst (GetEyeOutputViewport
            (side_by_side 1920 1080 1 1 0 indeterminate_pose) Eye_Right))
    (full_rectangle 1920 1080).
Proof.
  apply (side_by_side_tiles_even
           (side_by_side 1920 1080 1 1 0 indeterminate_pose));
    unfold uint32_range; simpl; try reflexivity; lia.
Defined.

(** C4 as stated fails for an odd width: on a 3x1 display the pixel
    [(2, 0)] lies in the full rectangle and in neither viewport. *)
Lemma side_by_side_odd_width_gap :
  ~ tiles
      (fst (GetEyeOutputViewport
              (side_by_side 3 1 1 1 0 indeterminate_pose) Eye_Left))
      (fst (GetEyeOutputViewport
              (side_by_side 3 1 1 1 0 indeterminate_pose) Eye_Right))
      (full_rectangle 3 1).
Proof.
  intros T. destruct (T 2 0) as [_ G]. vm_compute in G. discriminate G.
Qed.

End ViewportProperties.


(** ** Raw projection bounds *)

Section ProjectionProperties.
Import TrackedDevice.
Context {PM : ProjectionMatrix}.
Local Open Scope R_scope.

(** The translation only changes the first row of the centre matrix. *)
Lemma translated_first_row (t : R) (c : Matrix4d) (j : nat) :
  mul4 (Translation3d t 0 0) c 0%nat j = c 0%nat j + t * c 3%nat j.
Proof. unfold mul4, Translation3d. simpl. ring. Qed.

Lemma translated_other_rows (t : R) (c : Matrix4d) (i j : nat) :
  (0 < i < 4)%nat ->
  mul4 (Translation3d t 0 0) c i j = c i j.
Proof.
  intros I. unfold mul4, Translation3d.
  destruct i as [|[|[|[|i]]]]; try lia; simpl; ring.
Qed.

(** C5. Whatever the field of view, the aspect ratio and the
    interpupillary distance (so in particular for a field of view in
    (0, pi), a positive aspect ratio and a non-negative distance), when
    the centre matrix is symmetric the bounds of the left eye (translated
    by -IPD/2) mirror those of the right eye (translated by +IPD/2). *)
Theorem projection_mirror_symmetric (self : OSVRTrackedDevice) :
  let cfg := m_DisplayConfiguration self in
  symmetric_center
    (make_projection_matrix (getHorizontalFOVRadians cfg)
       (getFOVAspectRatio cfg) (1 / 10) 100) ->
  mirrored (GetProjectionRaw self Eye_Left) (GetProjectionRaw self Eye_Right).
Proof.
  intros cfg [C02 C30].
  unfold mirrored, GetProjectionRaw. fold cfg. simpl.
  rewrite !translated_first_row.
  rewrite !translated_other_rows by lia.
  rewrite C02, C30.
  rewrite !Rmult_0_r, !Rplus_0_r.
  unfold Rdiv.
  repeat split; ring.
Qed.

End ProjectionProperties.

(** With the usual perspective matrix the recovered near distance is the
    1/10 the centre matrix was built with, and the horizontal bounds of
    the left eye are shifted towards the right by half the interpupillary
    distance. *)
Lemma perspective_left_eye (self : TrackedDevice.OSVRTrackedDevice) :
  let cfg := TrackedDevice.m_DisplayConfiguration self in
  let t := tan (TrackedDevice.getHorizontalFOVRadians cfg / 2) in
  let h := (TrackedDevice.getIPDMeters cfg / 2)%R in
  t <> 0%R ->
  let raw :=
    @TrackedDevice.GetProjectionRaw
      {| TrackedDevice.make_projection_matrix := TrackedDevice.perspective |}
      self Eye_Left in
  TrackedDevice.left raw = (1 / 10 * (h - 1) * t)%R /\
  TrackedDevice.right raw = (1 / 10 * (h + 1) * t)%R.
Proof.
  intros cfg t h T raw. subst raw.
  unfold TrackedDevice.GetProjectionRaw. fold cfg. simpl.
  rewrite !translated_first_row. rewrite !translated_other_rows by lia.
  unfold TrackedDevice.perspective. fold t. fold h.
  split; field; exact T.
Qed.

Lemma projection_mirror_symmetric_witness :
  TrackedDevice.mirrored
    (@TrackedDevice.GetProjectionRaw
       {| TrackedDevice.make_projection_matrix := TrackedDevice.perspective |}
       (TrackedDevice.side_by_side 1920 1080 (PI / 2) 1 (63 / 1000)
          indeterminate_pose)
       Eye_Left)
    (@TrackedDevice.GetProjectionRaw
       {| TrackedDevice.make_projection_matrix := TrackedDevice.perspective |}
       (TrackedDevice.side_by_side 1920 1080 (PI / 2) 1 (63 / 1000)
          indeterminate_pose)
       Eye_Right).
Proof.
  apply (@projection_mirror_symmetric
           {| TrackedDevice.make_projection_matrix :=
                TrackedDevice.perspective |}
           (TrackedDevice.side_by_side 1920 1080 (PI / 2) 1 (63 / 1000)
              indeterminate_pose)).
  split; reflexivity.
Defined.


(** ** Tracker callbacks *)

Section CallbackProperties.

(** X29. The callback of the HMD device publishes, both in [pose_] and
    to the driver host, a pose that carries the report's translation and
    rotation. *)
Lemma hmd_callback_publishes (self : TrackedHMD.Tracking)
    (report : OSVR_PoseReport) :
  exists pose : DriverPose_t,
    TrackedHMD.HmdTrackerCallback (Some self) report =
      Some {| TrackedHMD.pose_ := pose;
              TrackedHMD.objectId_ := TrackedHMD.objectId_ self;
              TrackedHMD.driverHost_ :=
                (TrackedHMD.objectId_ self, pose)
                  :: TrackedHMD.driverHost_ self |} /\
    carries_rotation report pose /\
    carries_translation report pose.
Proof.
  eexists. split; [reflexivity|].
  split; [repeat split|reflexivity].
Qed.

(** The callback of the single-header device publishes a pose that is
    fully initialized and carries the report's rotation; each component
    of its position is the first component of the report's translation. *)
Lemma device_callback_publishes (self : TrackedDevice.OSVRTrackedDevice)
    (report : OSVR_PoseReport) :
  exists pose : DriverPose_t,
    TrackedDevice.HmdTrackerCallback (Some self) report =
      Some (TrackedDevice.set_pose_ pose self) /\
    carries_rotation report pose /\
    vecPosition pose =
      Array3 (Some (a0 (translation report)))
             (Some (a0 (translation report)))
             (Some (a0 (translation report))).
Proof.
  eexists. split; [reflexivity|].
  split; [repeat split|reflexivity].
Qed.

(** Without interleaving, a poll after a callback reads the pose that
    callback published, whole. *)
Lemma device_poll_after_callback (self self' : TrackedDevice.OSVRTrackedDevice)
    (report : OSVR_PoseReport) :
  TrackedDevice.HmdTrackerCallback (Some self) report = Some self' ->
  carries_rotation report (TrackedDevice.GetPose self').
Proof.
  destruct (device_callback_publishes self report) as [pose [E [C _]]].
  rewrite E. intros I. injection I as <-. exact C.
Qed.

(** A null device pointer: the callback returns at once. *)
Lemma callback_null_userdata (report : OSVR_PoseReport) :
  TrackedDevice.HmdTrackerCallback None report = None /\
  TrackedHMD.HmdTrackerCallback None report = None.
Proof. split; reflexivity. Qed.

(** C2. On the report with translation (1, 2, 3) the callback of the
    single-header device publishes the position (1, 1, 1): the pose does
    not carry the report's translation. *)
Theorem device_callback_position_slip :
  let report :=
    {| translation := Array3 1%R 2%R 3%R;
       rotation := {| osvrQuatGetW := 1; osvrQuatGetX := 0;
                      osvrQuatGetY := 0; osvrQuatGetZ := 0 |} |} in
  let self := TrackedDevice.side_by_side 1920 1080 1 1 0 indeterminate_pose in
  exists pose : DriverPose_t,
    TrackedDevice.HmdTrackerCallback (Some self) report =
      Some (TrackedDevice.set_pose_ pose self) /\
    vecPosition pose = Array3 (Some 1%R) (Some 1%R) (Some 1%R) /\
    ~ carries_translation report pose.
Proof.
  intros report self. eexists. split; [reflexivity|].
  split; [reflexivity|].
  unfold carries_translation. simpl. unfold map3. simpl.
  intros E. injection E as E1 E2. lra.
Qed.

End CallbackProperties.

(** ** Distortion *)

Section DistortionProperties.
Context {RK : TrackedHMD.RenderKit}.
Local Open Scope R_scope.

(** X28. The HMD device follows the contract: it flips V, interpolates
    each of the three channels against the eye's own parameters and mesh,
    and flips V back. *)
Lemma hmd_distortion_follows_contract (self : TrackedHMD.Distortion)
    (eye : Hmd_Eye) (u v : R)
    (distortion_parameters : TrackedHMD.DistortionParameters) :
  nth_error (TrackedHMD.distortionParameters_ self)
    (TrackedHMD.size_t_of_eye eye) = Some distortion_parameters ->
  TrackedHMD.ComputeDistortion self eye u v =
    Some (TrackedHMD.distortion_contract
            (fun color in_coords =>
               TrackedHMD.DistortionCorrectTextureCoordinate
                 (TrackedHMD.size_t_of_eye eye) in_coords
                 distortion_parameters color
                 (TrackedHMD.overfillFactor_ self)
                 (TrackedHMD.eye_interpolators self eye))
            u v).
Proof.
  intros P. unfold TrackedHMD.ComputeDistortion. rewrite P.
  destruct eye; reflexivity.
Qed.

(** Flipping V twice gives the coordinate back. *)
Lemma flip_v_involutive (uv : R * R) :
  TrackedHMD.flip_v (TrackedHMD.flip_v uv) = uv.
Proof.
  destruct uv as [u v]. unfold TrackedHMD.flip_v. simpl.
  f_equal. ring.
Qed.

(** With an interpolation that leaves coordinates alone, the contract
    returns the input for all three channels. *)
Lemma contract_identity (u v : R) :
  TrackedHMD.distortion_contract (fun _ uv => uv) u v =
    {| rfRed := (u, v); rfGreen := (u, v); rfBlue := (u, v) |}.
Proof.
  unfold TrackedHMD.distortion_contract.
  rewrite flip_v_involutive. reflexivity.
Qed.

End DistortionProperties.

(** The single-header device returns zero for every channel, whatever the
    eye and the coordinate. *)
Lemma device_distortion_zero (self : TrackedDevice.OSVRTrackedDevice)
    (eye : Hmd_Eye) (u v : R) :
  TrackedDevice.ComputeDistortion self eye u v =
    {| rfRed := (0%R, 0%R); rfGreen := (0%R, 0%R); rfBlue := (0%R, 0%R) |}.
Proof. reflexivity. Qed.

(** C6. At the centre (1/2, 1/2) of the left eye the single-header device
    returns zero coordinates, where flipping, interpolating with an
    interpolation that leaves coordinates alone and flipping back gives
    (1/2, 1/2) for each channel. *)
Theorem device_distortion_stub :
  let self := TrackedDevice.side_by_side 1920 1080 1 1 0 indeterminate_pose in
  TrackedDevice.ComputeDistortion self Eye_Left (1 / 2) (1 / 2) =
    {| rfRed := (0%R, 0%R); rfGreen := (0%R, 0%R); rfBlue := (0%R, 0%R) |} /\
  TrackedDevice.ComputeDistortion self Eye_Left (1 / 2) (1 / 2) <>
    TrackedHMD.distortion_contract (fun _ uv => uv) (1 / 2) (1 / 2).
Proof.
  intros self. split; [reflexivity|].
  rewrite contract_identity. unfold TrackedDevice.ComputeDistortion.
  intros E. injection E as E1 _. lra.
Qed.


(** ** Activation *)

Section ActivationProperties.
Import TrackedHMD.

(** The display checks only look further when the number of viewers is
    not one: with exactly one viewer, whatever its eyes and surfaces, a
    started context and display lead to [VRInitError_None]. *)
Lemma activate_one_viewer (env : Environment) :
  context_started env = true ->
  display_started env = true ->
  getNumViewers (displayConfig_ env) = 1%nat ->
  Activate env = Value VRInitError_None.
Proof.
  intros C D V. unfold Activate. rewrite C, D. simpl.
  unfold unexpected_display_parameters. rewrite V. reflexivity.
Qed.

(** A timeout of either polling loop fails the activation. *)
Lemma activate_timeout (env : Environment) :
  context_started env = false \/ display_started env = false ->
  Activate env = Value VRInitError_Driver_Failed.
Proof.
  unfold Activate. intros [E|E]; rewrite E; simpl; [reflexivity|].
  destruct (context_started env); reflexivity.
Qed.

(** C7. A display configuration with one viewer that has a single eye is
    invalid, yet the activation with it returns [VRInitError_None]. *)
Theorem activate_accepts_one_eye :
  let env := {| context_started := true;
                display_started := true;
                displayConfig_ := (1%nat :: nil) :: nil |} in
  invalid_display (displayConfig_ env) = true /\
  Activate env = Value VRInitError_None.
Proof. split; reflexivity. Qed.

(** The same with two eyes that have no surface. *)
Lemma activate_accepts_no_surfaces :
  let env := {| context_started := true;
                display_started := true;
                displayConfig_ := (0%nat :: 0%nat :: nil) :: nil |} in
  invalid_display (displayConfig_ env) = true /\
  Activate env = Value VRInitError_None.
Proof. split; reflexivity. Qed.

End ActivationProperties.


(** ** Display configuration *)

Section ConfigureProperties.
Import TrackedHMD.

Lemma prefix_append (needle s : string) :
  String.prefix needle s = true <->
  exists after : string, s = String.append needle after.
Proof.
  revert s. induction needle as [|c needle IH]; intros s.
  - split; [intros _; exists s; reflexivity|].
    intros _. destruct s; reflexivity.
  - destruct s as [|c' s]; simpl.
    + split; [discriminate|]. intros [after E]. discriminate E.
    + destruct (Ascii.ascii_dec c c') as [->|N].
      * rewrite IH. split; intros [after E]; exists after.
        -- rewrite E. reflexivity.
        -- injection E as E. exact E.
      * split; [discriminate|]. intros [after E].
        injection E as E1 E2. congruence.
Qed.

Lemma find_unfold (s needle : string) :
  find s needle =
    if String.prefix needle s then Some O
    else match s with
         | EmptyString => None
         | String _ rest => option_map S (find rest needle)
         end.
Proof. destruct s; reflexivity. Qed.

(** A position found is the start of an occurrence. *)
Lemma find_some_contains (s needle : string) (n : nat) :
  find s needle = Some n -> contains s needle.
Proof.
  revert n. induction s as [|c s IH]; intros n; rewrite find_unfold.
  - destruct (String.prefix needle EmptyString) eqn:P; [|discriminate].
    intros _. apply prefix_append in P. destruct P as [after E].
    exists EmptyString, after. exact E.
  - destruct (String.prefix needle (String c s)) eqn:P.
    + intros _. apply prefix_append in P. destruct P as [after E].
      exists EmptyString, after. exact E.
    + destruct (find s needle) as [k|]; [|discriminate].
      intros _. destruct (IH k eq_refl) as [before [after E]].
      exists (String c before), after. rewrite E. reflexivity.
Qed.

Lemma find_none_not_contains (s needle : string) :
  find s needle = None -> ~ contains s needle.
Proof.
  induction s as [|c s IH]; rewrite find_unfold.
  - destruct (String.prefix needle EmptyString) eqn:P; [discriminate|].
    intros _ [before [after E]].
    destruct before as [|b before]; [|discriminate E].
    assert (String.prefix needle EmptyString = true) as Q
      by (apply prefix_append; exists after; exact E).
    congruence.
  - destruct (String.prefix needle (String c s)) eqn:P; [discriminate|].
    destruct (find s needle) as [k|]; [discriminate|].
    intros _ [before [after E]].
    destruct before as [|b before].
    + assert (String.prefix needle (String c s) = true) as Q
        by (apply prefix_append; exists after; exact E).
      congruence.
    + simpl in E. injection E as _ E.
      apply (IH eq_refl). exists before, after. exact E.
Qed.

(** [find] answers [npos] exactly when the needle does not occur. *)
Lemma find_npos (s needle : string) :
  find s needle = None <-> ~ contains s needle.
Proof.
  split; [apply find_none_not_contains|].
  intros N. destruct (find s needle) as [n|] eqn:F; [|reflexivity].
  exfalso. apply N. apply (find_some_contains _ _ _ F).
Qed.

(** No display matches: the loop ends without a detected display. *)
Lemma detect_none (display_name : string) (displays : list Display) :
  (forall d : Display, In d displays -> ~ contains (name d) display_name) ->
  detect displays display_name = None.
Proof.
  induction displays as [|d displays IH]; intros N; simpl; [reflexivity|].
  rewrite (proj2 (find_npos (name d) display_name))
    by (apply N; left; reflexivity).
  apply IH. intros d' I. apply N. right. exact I.
Qed.

(** A detected display is one of the displays and its name contains the
    configured name. *)
Lemma detect_some (display_name : string) (displays : list Display)
    (d : Display) :
  detect displays display_name = Some d ->
  In d displays /\ contains (name d) display_name.
Proof.
  induction displays as [|d' displays IH]; simpl; [discriminate|].
  destruct (find (name d') display_name) as [n|] eqn:F.
  - intros E. injection E as <-. split; [left; reflexivity|].
    apply (find_some_contains _ _ _ F).
  - intros E. destruct (IH E) as [I C]. split; [right; exact I|exact C].
Qed.

(** C10. When no detected display has a name that contains the configured
    display name, [configure] leaves the built-in description in
    [display_]: name "OSVR HDK", 1920x1080, at (1920, 0), 60 Hz, attached
    to the desktop. *)
Theorem configure_falls_back (display_name : string)
    (displays : list Display) :
  (forall d : Display, In d displays -> ~ contains (name d) display_name) ->
  let display_ := configure display_name displays in
  display_ = default_display /\
  name display_ = "OSVR HDK"%string /\
  size_width display_ = 1920 /\ size_height display_ = 1080 /\
  position_x display_ = 1920 /\ position_y display_ = 0 /\
  verticalRefreshRate display_ = 60%R /\
  attachedToDesktop display_ = true.
Proof.
  intros N display_. subst display_. unfold configure.
  rewrite (detect_none _ _ N). repeat split.
Qed.

(** X30. [configure] always leaves a description: a detected display
    whose name contains the configured name, or the built-in one. *)
Lemma configure_total (display_name : string) (displays : list Display) :
  (In (configure display_name displays) displays /\
   contains (name (configure display_name displays)) display_name) \/
  configure display_name displays = default_display.
Proof.
  unfold configure.
  destruct (detect displays display_name) as [d|] eqn:D.
  - left. apply (detect_some _ _ _ D).
  - right. reflexivity.
Qed.

End ConfigureProperties.

Lemma configure_falls_back_witness :
  let display_ :=
    TrackedHMD.configure "OSVR" (TrackedHMD.desktop_monitor :: nil) in
  display_ = TrackedHMD.default_display /\
  TrackedHMD.name display_ = "OSVR HDK"%string /\
  TrackedHMD.size_width display_ = 1920 /\
  TrackedHMD.size_height display_ = 1080 /\
  TrackedHMD.position_x display_ = 1920 /\
  TrackedHMD.position_y display_ = 0 /\
  TrackedHMD.verticalRefreshRate display_ = 60%R /\
  TrackedHMD.attachedToDesktop display_ = true.
Proof.
  apply (configure_falls_back "OSVR" (TrackedHMD.desktop_monitor :: nil)).
  intros d [<-|[]]. apply find_none_not_contains. reflexivity.
Defined.

(** A display whose name contains the configured name is taken. *)
Example configure_detects_headset :
  TrackedHMD.configure "OSVR"
    (TrackedHMD.desktop_monitor :: TrackedHMD.headset_panel :: nil) =
  TrackedHMD.headset_panel.
Proof. reflexivity. Qed.


(** * Further properties *)

(** ** Property store: what a query writes and returns *)

Section PropertyStoreFurther.
Import PropertyStore.
Context {PP : PropertyProperties}.
Variable self : OSVRTrackedDevice.

Lemma store_if_nonnull_frame (error : pointer) (e : ETrackedPropertyError)
    (m m' : gmap nat ETrackedPropertyError) (b : nat) :
  store_if_nonnull error e m = Returned tt m' ->
  error <> ptr b ->
  m' !! b = m !! b.
Proof.
  destruct error as [|a]; simpl.
  - intros E _. injection E as <-. reflexivity.
  - unfold store_if_nonnull, store. simpl. intros E N. injection E as <-.
    apply lookup_insert_ne. congruence.
Qed.

Lemma store_if_nonnull_returns (error : pointer) (e : ETrackedPropertyError)
    (m : gmap nat ETrackedPropertyError) :
  exists m', store_if_nonnull error e m = Returned tt m'.
Proof. destruct error; eexists; reflexivity. Qed.

(** The shape of every call: one conditional store, then the value or
    [bad_get]. *)
Lemma get_shape (T : PropertyKind) (prop : ETrackedDeviceProperty)
    (error : pointer) (dflt : cpp_type T)
    (m : gmap nat ETrackedPropertyError) :
  exists (e : ETrackedPropertyError) (m' : gmap nat ETrackedPropertyError),
    store_if_nonnull error e m = Returned tt m' /\
    (GetTrackedDeviceProperty self T prop error dflt m = BadGet m' \/
     exists v, GetTrackedDeviceProperty self T prop error dflt m =
                 Returned v m').
Proof.
  destruct (success_or_not (checkProperty self T prop)) as [C|C].
  - rewrite get_passed_check by exact C.
    destruct (properties_ self !! prop) as [stored|].
    + destruct (store_if_nonnull_returns error TrackedProp_Success m)
        as [m' E].
      exists TrackedProp_Success, m'. split; [exact E|].
      unfold bind. rewrite E. destruct (boost_get T stored) as [v|].
      * right. exists v. reflexivity.
      * left. reflexivity.
    + destruct (store_if_nonnull_returns error
                  TrackedProp_ValueNotProvidedByDevice m) as [m' E].
      exists TrackedProp_ValueNotProvidedByDevice, m'. split; [exact E|].
      right. exists dflt. unfold bind. rewrite E. reflexivity.
  - rewrite get_failed_check by exact C.
    destruct (store_if_nonnull_returns error (checkProperty self T prop) m)
      as [m' E].
    exists (checkProperty self T prop), m'. split; [exact E|].
    right. exists dflt. unfold bind. rewrite E. reflexivity.
Qed.

(** X1. A query writes nothing but the caller's error cell: every other
    cell of the memory is as before, whether the call returns or leaves
    with [bad_get]. *)
Theorem get_writes_only_error_cell (T : PropertyKind)
    (prop : ETrackedDeviceProperty) (error : pointer) (dflt : cpp_type T)
    (m : gmap nat ETrackedPropertyError) (b : nat) :
  error <> ptr b ->
  exists m' : gmap nat ETrackedPropertyError,
    memory_after (GetTrackedDeviceProperty self T prop error dflt m) =
      Some m' /\
    m' !! b = m !! b.
Proof.
  intros N.
  destruct (get_shape T prop error dflt m) as [e [m' [S [B|[v R]]]]].
  - exists m'. rewrite B. split; [reflexivity|].
    apply (store_if_nonnull_frame _ _ _ _ _ S N).
  - exists m'. rewrite R. split; [reflexivity|].
    apply (store_if_nonnull_frame _ _ _ _ _ S N).
Qed.

(** X2. The error cell tells where a returned value comes from: the cell
    holds Success exactly when the value is the one stored under the key,
    and with any other error the value is the caller's default. *)
Theorem get_value_matches_error (T : PropertyKind)
    (prop : ETrackedDeviceProperty) (a : nat) (dflt v : cpp_type T)
    (m m' : gmap nat ETrackedPropertyError) :
  GetTrackedDeviceProperty self T prop (ptr a) dflt m = Returned v m' ->
  (m' !! a = Some TrackedProp_Success /\
   properties_ self !! prop = Some (to_variant T v)) \/
  (exists e : ETrackedPropertyError,
     m' !! a = Some e /\ e <> TrackedProp_Success /\ v = dflt).
Proof.
  destruct (success_or_not (checkProperty self T prop)) as [C|C].
  - rewrite get_passed_check by exact C.
    destruct (properties_ self !! prop) as [stored|] eqn:L.
    + unfold bind. rewrite store_if_nonnull_ptr.
      destruct (boost_get T stored) as [w|] eqn:B; [|discriminate].
      intros E. injection E as <- <-. left.
      split; [apply lookup_insert_eq|].
      f_equal. apply boost_get_Some. exact B.
    + unfold bind. rewrite store_if_nonnull_ptr. intros E.
      injection E as <- <-. right.
      exists TrackedProp_ValueNotProvidedByDevice.
      split; [apply lookup_insert_eq|]. split; [discriminate|reflexivity].
  - rewrite get_failed_check by exact C.
    unfold bind. rewrite store_if_nonnull_ptr. intros E.
    injection E as <- <-. right. exists (checkProperty self T prop).
    split; [apply lookup_insert_eq|]. split; [exact C|reflexivity].
Qed.

(** X3. A device whose class is invalid never answers a query: whatever
    is stored, the default comes back with an error that is WrongDataType,
    WrongDeviceClass or InvalidDevice. *)
Theorem get_invalid_device (T : PropertyKind)
    (prop : ETrackedDeviceProperty) (a : nat) (dflt : cpp_type T)
    (m : gmap nat ETrackedPropertyError) :
  deviceClass_ self = TrackedDeviceClass_Invalid ->
  exists e : ETrackedPropertyError,
    GetTrackedDeviceProperty self T prop (ptr a) dflt m =
      Returned dflt (<[a := e]> m) /\
    (e = TrackedProp_WrongDataType \/ e = TrackedProp_WrongDeviceClass \/
     e = TrackedProp_InvalidDevice).
Proof.
  intros D. exists (checkProperty self T prop).
  assert (checkProperty self T prop = TrackedProp_WrongDataType \/
          checkProperty self T prop = TrackedProp_WrongDeviceClass \/
          checkProperty self T prop = TrackedProp_InvalidDevice) as C.
  { rewrite checkProperty_order, D.
    destruct (isWrongDataType prop T); [auto|].
    destruct (isWrongDeviceClass prop TrackedDeviceClass_Invalid); auto. }
  split; [|exact C].
  rewrite get_failed_check
    by (destruct C as [C|[C|C]]; rewrite C; discriminate).
  reflexivity.
Qed.

End PropertyStoreFurther.

Section PropertyStoreRoundTrip.
Import PropertyStore.
Context {PP : PropertyProperties}.
Variable self : OSVRTrackedDevice.

(** The checks look at the device class only, not at what is stored. *)
Lemma checkProperty_assign (T : PropertyKind)
    (prop prop' : ETrackedDeviceProperty) (value : PropertyValue) :
  checkProperty (assign prop' value self) T prop = checkProperty self T prop.
Proof. reflexivity. Qed.

(** X4. A value written under a key is read back: when the checks for
    kind and device class pass, a query for the kind that was written
    returns that value with Success, whatever was stored before. *)
Theorem assign_then_get (T : PropertyKind) (prop : ETrackedDeviceProperty)
    (v dflt : cpp_type T) (a : nat) (m : gmap nat ETrackedPropertyError) :
  checkProperty self T prop = TrackedProp_Success ->
  GetTrackedDeviceProperty (assign prop (to_variant T v) self) T prop
    (ptr a) dflt m =
  Returned v (<[a := TrackedProp_Success]> m).
Proof.
  intros C. rewrite get_passed_check
    by (rewrite checkProperty_assign; exact C).
  simpl. rewrite lookup_insert_eq. unfold bind.
  rewrite store_if_nonnull_ptr, boost_get_to_variant. reflexivity.
Qed.

(** X5. Writing under one key does not change what a query for another
    key gives. *)
Theorem assign_other_key (T : PropertyKind)
    (prop prop' : ETrackedDeviceProperty) (value : PropertyValue)
    (error : pointer) (dflt : cpp_type T)
    (m : gmap nat ETrackedPropertyError) :
  prop' <> prop ->
  GetTrackedDeviceProperty (assign prop' value self) T prop error dflt m =
  GetTrackedDeviceProperty self T prop error dflt m.
Proof.
  intros N. unfold GetTrackedDeviceProperty.
  rewrite checkProperty_assign. simpl.
  rewrite lookup_insert_ne by exact N. reflexivity.
Qed.

End PropertyStoreRoundTrip.

Section PropertyStoreFurtherWitnesses.
Import PropertyStore.

Lemma get_writes_only_error_cell_witness :
  exists m' : gmap nat ETrackedPropertyError,
    memory_after
      (@GetTrackedDeviceProperty sample_properties sample_hmd K_float
         Prop_UserIpdMeters_Float (ptr 0) 0%R
         (<[1%nat := TrackedProp_UnknownProperty]> ∅)) = Some m' /\
    m' !! 1%nat =
      (<[1%nat := TrackedProp_UnknownProperty]>
         (∅ : gmap nat ETrackedPropertyError)) !! 1%nat.
Proof.
  apply (@get_writes_only_error_cell sample_properties sample_hmd K_float
           Prop_UserIpdMeters_Float (ptr 0) 0%R
           (<[1%nat := TrackedProp_UnknownProperty]> ∅) 1%nat).
  discriminate.
Defined.

Lemma get_value_matches_error_witness :
  ((<[0%nat := TrackedProp_WrongDeviceClass]>
      (∅ : gmap nat ETrackedPropertyError)) !! 0%nat =
     Some TrackedProp_Success /\
   properties_ sample_controller !! Prop_UserIpdMeters_Float =
     Some (to_variant K_float 1%R)) \/
  (exists e : ETrackedPropertyError,
     (<[0%nat := TrackedProp_WrongDeviceClass]>
        (∅ : gmap nat ETrackedPropertyError)) !! 0%nat = Some e /\
     e <> TrackedProp_Success /\ 1%R = 1%R).
Proof.
  apply (@get_value_matches_error sample_properties sample_controller
           K_float Prop_UserIpdMeters_Float 0%nat 1%R 1%R ∅
           (<[0%nat := TrackedProp_WrongDeviceClass]> ∅)).
  reflexivity.
Defined.

Lemma get_invalid_device_witness :
  exists e : ETrackedPropertyError,
    @GetTrackedDeviceProperty sample_properties sample_invalid K_bool
      Prop_WillDriftInYaw_Bool (ptr 0) false ∅ =
      Returned false (<[0%nat := e]> ∅) /\
    (e = TrackedProp_WrongDataType \/ e = TrackedProp_WrongDeviceClass \/
     e = TrackedProp_InvalidDevice).
Proof.
  apply (@get_invalid_device sample_properties sample_invalid K_bool
           Prop_WillDriftInYaw_Bool 0%nat false ∅).
  reflexivity.
Defined.

Lemma assign_then_get_witness :
  @GetTrackedDeviceProperty sample_properties
    (assign Prop_DisplayFrequency_Float (to_variant K_float 60%R) sample_hmd)
    K_float Prop_DisplayFrequency_Float (ptr 0) 0%R ∅ =
  Returned 60%R (<[0%nat := TrackedProp_Success]> ∅).
Proof.
  apply (@assign_then_get sample_properties sample_hmd K_float
           Prop_DisplayFrequency_Float 60%R 0%R 0%nat ∅).
  reflexivity.
Defined.

Lemma assign_other_key_witness :
  @GetTrackedDeviceProperty sample_properties
    (assign Prop_DisplayFrequency_Float (V_float 60) sample_hmd)
    K_float Prop_UserIpdMeters_Float (ptr 0) 0%R ∅ =
  @GetTrackedDeviceProperty sample_properties sample_hmd
    K_float Prop_UserIpdMeters_Float (ptr 0) 0%R ∅.
Proof.
  apply (@assign_other_key sample_properties sample_hmd K_float
           Prop_UserIpdMeters_Float Prop_DisplayFrequency_Float
           (V_float 60) (ptr 0) 0%R ∅).
  discriminate.
Defined.

End PropertyStoreFurtherWitnesses.


(** ** Eye viewports: bounds and layout *)

Section ViewportFurther.
Import TrackedDevice.

(** The viewport of an eye written out, for a resolution within
    [uint32_t]. *)
Lemma viewport_in_range (self : OSVRTrackedDevice) (eye : Hmd_Eye) :
  let cfg := m_DisplayConfiguration self in
  uint32_range (getDisplayWidth cfg) ->
  uint32_range (getDisplayHeight cfg) ->
  fst (GetEyeOutputViewport self eye) =
    viewport_policy (getDisplayMode cfg) (getDisplayWidth cfg)
      (getDisplayHeight cfg) eye.
Proof.
  intros cfg RW RH. subst cfg. unfold GetEyeOutputViewport.
  destruct (getDisplayMode (m_DisplayConfiguration self)), eye; simpl;
    rewrite ?(wrap32_half _ RW), ?(wrap32_half _ RH),
            ?(wrap32_id _ RW), ?(wrap32_id _ RH);
    reflexivity.
Qed.

Lemma half_twice (n : Z) : 0 <= n -> n / 2 + n / 2 <= n.
Proof. intros N. pose proof (Z.mul_div_le n 2). lia. Qed.

(** X6. An eye's viewport never leaves the render target: in every
    layout mode and for both eyes its origin is not negative and its right
    and bottom edges stay within the recommended render target size. *)
Theorem viewport_within_render_target (self : OSVRTrackedDevice)
    (eye : Hmd_Eye) :
  let cfg := m_DisplayConfiguration self in
  uint32_range (getDisplayWidth cfg) ->
  uint32_range (getDisplayHeight cfg) ->
  let v := fst (GetEyeOutputViewport self eye) in
  0 <= x v /\ 0 <= y v /\ 0 <= width v /\ 0 <= height v /\
  x v + width v <= fst (GetRecommendedRenderTargetSize self) /\
  y v + height v <= snd (GetRecommendedRenderTargetSize self).
Proof.
  intros cfg RW RH v. subst v.
  rewrite viewport_in_range by assumption.
  unfold GetRecommendedRenderTargetSize. fold cfg. simpl.
  rewrite (wrap32_id _ RW), (wrap32_id _ RH).
  pose proof (half_range _ RW) as HW. pose proof (half_range _ RH) as HH.
  pose proof (half_twice (getDisplayWidth cfg)) as TW.
  pose proof (half_twice (getDisplayHeight cfg)) as TH.
  unfold uint32_range in *.
  destruct (getDisplayMode cfg), eye; simpl; lia.
Qed.

Lemma viewport_within_render_target_witness :
  let self := with_layout VERTICAL_SIDE_BY_SIDE 1081 1921 in
  let v := fst (GetEyeOutputViewport self Eye_Right) in
  0 <= x v /\ 0 <= y v /\ 0 <= width v /\ 0 <= height v /\
  x v + width v <= fst (GetRecommendedRenderTargetSize self) /\
  y v + height v <= snd (GetRecommendedRenderTargetSize self).
Proof.
  apply (viewport_within_render_target
           (with_layout VERTICAL_SIDE_BY_SIDE 1081 1921) Eye_Right);
    unfold uint32_range; simpl; lia.
Defined.

(** X7. The two eyes always get viewports of the same size, and in the
    two split modes the viewports share no pixel, also when the split
    dimension is odd. *)
Theorem eyes_same_size_never_overlap (self : OSVRTrackedDevice) :
  let cfg := m_DisplayConfiguration self in
  uint32_range (getDisplayWidth cfg) ->
  uint32_range (getDisplayHeight cfg) ->
  let l := fst (GetEyeOutputViewport self Eye_Left) in
  let r := fst (GetEyeOutputViewport self Eye_Right) in
  width l = width r /\ height l = height r /\
  (getDisplayMode cfg = HORIZONTAL_SIDE_BY_SIDE \/
   getDisplayMode cfg = VERTICAL_SIDE_BY_SIDE ->
   forall px py : Z, in_viewport l px py && in_viewport r px py = false).
Proof.
  intros cfg RW RH l r. subst l r.
  rewrite !viewport_in_range by assumption. fold cfg.
  destruct (getDisplayMode cfg) eqn:MODE; simpl;
    (split; [reflexivity|]); (split; [reflexivity|]);
    intros [M|M]; try discriminate M; intros px py;
    unfold in_viewport; simpl.
  - destruct (0 <=? px) eqn:E1, (px <? 0 + getDisplayWidth cfg / 2) eqn:E2,
      (getDisplayWidth cfg / 2 <=? px) eqn:E3; simpl;
      try reflexivity; try lia.
    all: destruct (px <? getDisplayWidth cfg / 2 + getDisplayWidth cfg / 2);
      simpl; try reflexivity;
      destruct (0 <=? py); simpl; try reflexivity;
      destruct (py <? 0 + getDisplayHeight cfg); reflexivity.
  - destruct (0 <=? py) eqn:E1, (py <? 0 + getDisplayHeight cfg / 2) eqn:E2,
      (getDisplayHeight cfg / 2 <=? py) eqn:E3; simpl;
      try (rewrite ?andb_false_r; reflexivity); try lia.
    all: rewrite ?andb_false_r; simpl; rewrite ?andb_false_r;
      try reflexivity.
Qed.

Lemma eyes_same_size_never_overlap_witness :
  let self := with_layout HORIZONTAL_SIDE_BY_SIDE 1921 1080 in
  let l := fst (GetEyeOutputViewport self Eye_Left) in
  let r := fst (GetEyeOutputViewport self Eye_Right) in
  width l = width r /\ height l = height r /\
  (getDisplayMode (m_DisplayConfiguration self) = HORIZONTAL_SIDE_BY_SIDE \/
   getDisplayMode (m_DisplayConfiguration self) = VERTICAL_SIDE_BY_SIDE ->
   forall px py : Z, in_viewport l px py && in_viewport r px py = false).
Proof.
  apply (eyes_same_size_never_overlap
           (with_layout HORIZONTAL_SIDE_BY_SIDE 1921 1080));
    unfold uint32_range; simpl; lia.
Defined.

End ViewportFurther.

Section ViewportStacked.
Import TrackedDevice.

(** X8. One above the other, the two viewports are disjoint and together
    cover exactly the rows [0 .. 2 * (H / 2)) of the display: the whole
    display when the height is even, all but the last row when it is
    odd. *)
Theorem stacked_tiles (self : OSVRTrackedDevice) :
  let cfg := m_DisplayConfiguration self in
  getDisplayMode cfg = VERTICAL_SIDE_BY_SIDE ->
  uint32_range (getDisplayWidth cfg) ->
  uint32_range (getDisplayHeight cfg) ->
  tiles (fst (GetEyeOutputViewport self Eye_Left))
        (fst (GetEyeOutputViewport self Eye_Right))
        (full_rectangle (getDisplayWidth cfg)
           (2 * (getDisplayHeight cfg / 2))) /\
  (Z.even (getDisplayHeight cfg) = true ->
   2 * (getDisplayHeight cfg / 2) = getDisplayHeight cfg) /\
  (Z.odd (getDisplayHeight cfg) = true ->
   2 * (getDisplayHeight cfg / 2) = getDisplayHeight cfg - 1).
Proof.
  intros cfg MODE RW RH. split; [|split].
  - intros px py.
    unfold GetEyeOutputViewport. fold cfg. rewrite MODE. simpl.
    rewrite (wrap32_half _ RH), (wrap32_id _ RW).
    generalize (getDisplayWidth cfg) (getDisplayHeight cfg). intros W H.
    unfold in_viewport; simpl.
    split.
    + destruct (0 <=? px), (px <? 0 + W),
        (0 <=? py) eqn:E1, (py <? 0 + H / 2) eqn:E2,
        (H / 2 <=? py) eqn:E3, (py <? H / 2 + H / 2) eqn:E4;
        simpl; try reflexivity; lia.
    + destruct (0 <=? px), (px <? 0 + W),
        (0 <=? py) eqn:E1, (py <? 0 + H / 2) eqn:E2,
        (H / 2 <=? py) eqn:E3, (py <? H / 2 + H / 2) eqn:E4,
        (py <? 0 + 2 * (H / 2)) eqn:E5;
        simpl; try reflexivity; lia.
  - intros EV. apply Z.even_spec in EV. destruct EV as [k E].
    rewrite E. rewrite (Z.mul_comm 2 k), Z.div_mul by lia. lia.
  - intros OD. apply Z.odd_spec in OD. destruct OD as [k E].
    rewrite E.
    assert ((2 * k + 1) / 2 = k) as ->
      by (symmetry; apply Z.div_unique with 1; lia).
    lia.
Qed.

Lemma stacked_tiles_witness :
  let self := with_layout VERTICAL_SIDE_BY_SIDE 1080 1921 in
  tiles (fst (GetEyeOutputViewport self Eye_Left))
        (fst (GetEyeOutputViewport self Eye_Right))
        (full_rectangle 1080 (2 * (1921 / 2))) /\
  (Z.even 1921 = true -> 2 * (1921 / 2) = 1921) /\
  (Z.odd 1921 = true -> 2 * (1921 / 2) = 1921 - 1).
Proof.
  apply (stacked_tiles (with_layout VERTICAL_SIDE_BY_SIDE 1080 1921));
    unfold uint32_range; simpl; try reflexivity; lia.
Defined.

End ViewportStacked.

(** ** Raw projection bounds: what the eye and the distance change *)

Section ProjectionFurther.
Import TrackedDevice.
Context {PM : ProjectionMatrix}.
Local Open Scope R_scope.

(** X9. The vertical bounds depend on the field of view and the aspect
    ratio only: two devices that agree on these get the same top and
    bottom for either eye, whatever their interpupillary distances and
    whatever matrix [make_projection_matrix] builds. *)
Theorem vertical_bounds_ignore_eye (self self' : OSVRTrackedDevice)
    (eye eye' : Hmd_Eye) :
  getHorizontalFOVRadians (m_DisplayConfiguration self) =
    getHorizontalFOVRadians (m_DisplayConfiguration self') ->
  getFOVAspectRatio (m_DisplayConfiguration self) =
    getFOVAspectRatio (m_DisplayConfiguration self') ->
  top (GetProjectionRaw self eye) = top (GetProjectionRaw self' eye') /\
  bottom (GetProjectionRaw self eye) = bottom (GetProjectionRaw self' eye').
Proof.
  intros F A. unfold GetProjectionRaw. simpl.
  rewrite !translated_other_rows by lia.
  rewrite F, A. split; reflexivity.
Qed.

(** X10. With an interpupillary distance of zero both eyes get the same
    four bounds, whatever matrix [make_projection_matrix] builds. *)
Theorem zero_distance_same_bounds (self : OSVRTrackedDevice) :
  getIPDMeters (m_DisplayConfiguration self) = 0 ->
  GetProjectionRaw self Eye_Left = GetProjectionRaw self Eye_Right.
Proof.
  intros I. unfold GetProjectionRaw. simpl. rewrite I.
  replace (0 / 2 * -1) with (0 / 2) by field. reflexivity.
Qed.

End ProjectionFurther.

Lemma vertical_bounds_ignore_eye_witness :
  let PM := {| TrackedDevice.make_projection_matrix :=
                 TrackedDevice.perspective |} in
  let near := TrackedDevice.side_by_side 1920 1080 (PI / 2) 1 (60 / 1000)
                indeterminate_pose in
  let wide := TrackedDevice.side_by_side 1280 720 (PI / 2) 1 (70 / 1000)
                indeterminate_pose in
  TrackedDevice.top (TrackedDevice.GetProjectionRaw near Eye_Left) =
    TrackedDevice.top (TrackedDevice.GetProjectionRaw wide Eye_Right) /\
  TrackedDevice.bottom (TrackedDevice.GetProjectionRaw near Eye_Left) =
    TrackedDevice.bottom (TrackedDevice.GetProjectionRaw wide Eye_Right).
Proof.
  apply (@vertical_bounds_ignore_eye
           {| TrackedDevice.make_projection_matrix :=
                TrackedDevice.perspective |}
           (TrackedDevice.side_by_side 1920 1080 (PI / 2) 1 (60 / 1000)
              indeterminate_pose)
           (TrackedDevice.side_by_side 1280 720 (PI / 2) 1 (70 / 1000)
              indeterminate_pose)
           Eye_Left Eye_Right); reflexivity.
Defined.

Lemma zero_distance_same_bounds_witness :
  let PM := {| TrackedDevice.make_projection_matrix :=
                 TrackedDevice.perspective |} in
  let self := TrackedDevice.side_by_side 1920 1080 (PI / 2) 1 0
                indeterminate_pose in
  TrackedDevice.GetProjectionRaw self Eye_Left =
    TrackedDevice.GetProjectionRaw self Eye_Right.
Proof.
  apply (@zero_distance_same_bounds
           {| TrackedDevice.make_projection_matrix :=
                TrackedDevice.perspective |}
           (TrackedDevice.side_by_side 1920 1080 (PI / 2) 1 0
              indeterminate_pose)).
  reflexivity.
Defined.


(** ** Tracker callback: a sequence of reports *)

Section DeliveryProperties.
Import TrackedHMD.

Lemma callback_step (self : Tracking) (report : OSVR_PoseReport) :
  exists self' : Tracking,
    HmdTrackerCallback (Some self) report = Some self' /\
    objectId_ self' = objectId_ self /\
    driverHost_ self' = (objectId_ self, pose_ self') :: driverHost_ self /\
    update_for (objectId_ self) report (objectId_ self, pose_ self').
Proof.
  eexists. split; [reflexivity|]. simpl.
  split; [reflexivity|]. split; [reflexivity|].
  split; [reflexivity|]. split; [repeat split|reflexivity].
Qed.

(** X11. After any sequence of reports the driver host has received
    exactly one update per report, the newest first, each naming the
    device and carrying its report; the object id is unchanged and
    [pose_] is the pose of the newest update (the old [pose_] when there
    was no report). *)
Theorem deliver_updates_host (reports : list OSVR_PoseReport)
    (self : Tracking) :
  exists updates : list (Z * DriverPose_t),
    driverHost_ (deliver self reports) = updates ++ driverHost_ self /\
    Forall2 (update_for (objectId_ self)) (rev reports) updates /\
    objectId_ (deliver self reports) = objectId_ self /\
    pose_ (deliver self reports) =
      match updates with
      | update :: _ => snd update
      | nil => pose_ self
      end.
Proof.
  revert self. induction reports as [|report later IH]; intros self.
  - exists nil. repeat split. constructor.
  - destruct (callback_step self report) as [self' [E [I [H U]]]].
    cbn [deliver]. rewrite E.
    destruct (IH self') as [updates [L [F [I' P]]]].
    exists (updates ++ (objectId_ self, pose_ self') :: nil).
    split; [|split; [|split]].
    + rewrite L, H, <- app_assoc. reflexivity.
    + cbn [rev]. apply Forall2_app.
      * rewrite <- I. exact F.
      * constructor; [exact U|constructor].
    + rewrite I'. exact I.
    + rewrite P. destruct updates as [|update updates]; reflexivity.
Qed.

End DeliveryProperties.

(** ** Activation and deactivation: the tracker interface *)

Section SessionProperties.
Import ClientKit.

Lemma remove_only (h : nat) : List.remove Nat.eq_dec h (h :: nil) = nil.
Proof. simpl. destruct (Nat.eq_dec h h); [reflexivity|contradiction]. Qed.

(** Freeing the interface of a tidy session leaves nothing live. *)
Lemma free_if_notEmpty_tidy (s : Session) :
  tidy s ->
  trackerInterface (free_if_notEmpty s) = None /\
  interfaces (context (free_if_notEmpty s)) = nil /\
  callbacks (context (free_if_notEmpty s)) = nil /\
  next_handle (context (free_if_notEmpty s)) = next_handle (context s).
Proof.
  destruct s as [[h|] [ifs cbs n]]; unfold tidy, free_if_notEmpty; simpl;
    intros [-> ->]; rewrite ?remove_only; repeat split.
Qed.

(** Acquiring an interface when nothing is live gives a tidy session
    whose interface has the callback. *)
Lemma acquire_and_register_tidy (s : Session) :
  interfaces (context s) = nil ->
  callbacks (context s) = nil ->
  tidy (acquire_and_register s) /\
  trackerInterface (acquire_and_register s) = Some (next_handle (context s)) /\
  callbacks (context (acquire_and_register s)) =
    next_handle (context s) :: nil.
Proof.
  destruct s as [i [ifs cbs n]]. simpl. intros -> ->.
  unfold tidy, acquire_and_register. simpl. repeat split.
Qed.

Lemma free_if_notEmpty_idempotent (s : Session) :
  free_if_notEmpty (free_if_notEmpty s) = free_if_notEmpty s.
Proof. destruct s as [[h|] c]; reflexivity. Qed.

Lemma tidy_free (s : Session) : tidy s -> tidy (free_if_notEmpty s).
Proof.
  intros T. destruct (free_if_notEmpty_tidy s T) as [I [L [C _]]].
  unfold tidy. rewrite I, L, C. split; reflexivity.
Qed.

Lemma tidy_fresh (n : nat) : tidy (fresh n).
Proof. split; reflexivity. Qed.

End SessionProperties.

Section DeviceLifecycle.
Import ClientKit.

Lemma device_perform_tidy (s : Session) (c : TrackedDevice.call) :
  tidy s -> tidy (TrackedDevice.perform s c).
Proof.
  intros T. destruct c; simpl.
  - destruct (free_if_notEmpty_tidy s T) as [_ [L [C _]]].
    apply (acquire_and_register_tidy _ L C).
  - apply tidy_free, T.
Qed.

(** X12. Whatever sequence of [Activate] and [Deactivate] calls the host
    makes on the single-header device, the context never holds an
    interface besides the one in [m_TrackerInterface]: at most one
    interface is live, and a live one has the callback registered. *)
Theorem device_lifecycle_tidy (calls : list TrackedDevice.call) (n : nat) :
  let s := fold_left TrackedDevice.perform calls (fresh n) in
  tidy s /\ (length (interfaces (context s)) <= 1)%nat.
Proof.
  intros s.
  assert (tidy s) as T.
  { subst s. generalize (tidy_fresh n). generalize (fresh n).
    induction calls as [|c calls IH]; intros s0 T0; simpl; [exact T0|].
    apply IH, device_perform_tidy, T0. }
  split; [exact T|].
  destruct T as [I _]. rewrite I.
  destruct (trackerInterface s); simpl; lia.
Qed.

(** Past the construction of the display configuration, [Activate]
    leaves exactly one live interface with the callback, also on a device
    that is active already: the interface it held is freed, not leaked.
    [Deactivate] afterwards leaves none, and a second [Deactivate]
    changes nothing. *)
Lemma device_acquire_release (s : Session) :
  tidy s ->
  let (e, active) := TrackedDevice.Activate s in
  e = TrackedDevice.HmdError_None /\
  interfaces (context active) = next_handle (context s) :: nil /\
  callbacks (context active) = next_handle (context s) :: nil /\
  trackerInterface active = Some (next_handle (context s)) /\
  interfaces (context (TrackedDevice.Deactivate active)) = nil /\
  callbacks (context (TrackedDevice.Deactivate active)) = nil /\
  trackerInterface (TrackedDevice.Deactivate active) = None /\
  TrackedDevice.Deactivate (TrackedDevice.Deactivate active) =
    TrackedDevice.Deactivate active.
Proof.
  intros T. unfold TrackedDevice.Activate.
  destruct (free_if_notEmpty_tidy s T) as [_ [L [C N]]].
  destruct (acquire_and_register_tidy _ L C) as [T' [I C']].
  rewrite N in I, C'.
  destruct (free_if_notEmpty_tidy _ T') as [I'' [L'' [C'' _]]].
  split; [reflexivity|].
  split; [destruct T' as [-> _]; rewrite I; reflexivity|].
  split; [exact C'|]. split; [exact I|].
  unfold TrackedDevice.Deactivate.
  split; [exact L''|]. split; [exact C''|]. split; [exact I''|].
  apply free_if_notEmpty_idempotent.
Qed.

(** X13. [Activate] constructs the display configuration first. When
    the constructor raises on the description, the call ends there: no
    value is returned and the configuration pointer, the tracker
    interface and the context are as before. Otherwise it returns
    [HmdError_None], holds the new configuration and leaves exactly one
    live interface with the callback, also on a device that is active
    already (the old interface is freed, not leaked); [Deactivate]
    afterwards leaves none, and a second [Deactivate] changes nothing. *)
Theorem device_activate_outcome {DP : TrackedDevice.DescriptionParser}
    (description : string)
    (configuration : option TrackedDevice.OSVRDisplayConfiguration)
    (s : Session) :
  tidy s ->
  let a := TrackedDevice.Activate_described description configuration s in
  match TrackedDevice.construct description with
  | None =>
      TrackedDevice.returned a = None /\
      TrackedDevice.configuration_after a = configuration /\
      TrackedDevice.session_after a = s
  | Some constructed =>
      let active := TrackedDevice.session_after a in
      TrackedDevice.returned a = Some TrackedDevice.HmdError_None /\
      TrackedDevice.configuration_after a = Some constructed /\
      interfaces (context active) = next_handle (context s) :: nil /\
      callbacks (context active) = next_handle (context s) :: nil /\
      trackerInterface active = Some (next_handle (context s)) /\
      interfaces (context (TrackedDevice.Deactivate active)) = nil /\
      callbacks (context (TrackedDevice.Deactivate active)) = nil /\
      trackerInterface (TrackedDevice.Deactivate active) = None /\
      TrackedDevice.Deactivate (TrackedDevice.Deactivate active) =
        TrackedDevice.Deactivate active
  end.
Proof.
  intros T a. subst a. unfold TrackedDevice.Activate_described.
  destruct (TrackedDevice.construct description) as [constructed|].
  - pose proof (device_acquire_release s T) as A.
    unfold TrackedDevice.Activate in A.
    destruct A as [_ A]. cbn [TrackedDevice.returned
      TrackedDevice.configuration_after TrackedDevice.session_after].
    split; [reflexivity|]. split; [reflexivity|]. exact A.
  - repeat split.
Qed.

Lemma device_activate_outcome_witness :
  let s := acquire_and_register (fresh 7) in
  let a :=
    @TrackedDevice.Activate_described TrackedDevice.sample_parser
      "display" None s in
  let active := TrackedDevice.session_after a in
  TrackedDevice.returned a = Some TrackedDevice.HmdError_None /\
  TrackedDevice.configuration_after a =
    @TrackedDevice.construct TrackedDevice.sample_parser "display" /\
  interfaces (context active) = 8%nat :: nil /\
  callbacks (context active) = 8%nat :: nil /\
  trackerInterface active = Some 8%nat /\
  interfaces (context (TrackedDevice.Deactivate active)) = nil /\
  callbacks (context (TrackedDevice.Deactivate active)) = nil /\
  trackerInterface (TrackedDevice.Deactivate active) = None /\
  TrackedDevice.Deactivate (TrackedDevice.Deactivate active) =
    TrackedDevice.Deactivate active.
Proof.
  apply (@device_activate_outcome TrackedDevice.sample_parser "display" None
           (acquire_and_register (fresh 7))).
  split; reflexivity.
Defined.

(** An empty description is rejected by the sample constructor: the
    activation of an active device ends without a value and leaves its
    interface in place. *)
Example device_activate_rejected :
  let s := acquire_and_register (fresh 7) in
  let a :=
    @TrackedDevice.Activate_described TrackedDevice.sample_parser
      "" None s in
  TrackedDevice.returned a = None /\ TrackedDevice.session_after a = s.
Proof. split; reflexivity. Qed.

End DeviceLifecycle.

Section HmdLifecycle.
Import ClientKit TrackedHMD.

(** The only error the display checks report is
    [VRInitError_Driver_HmdDisplayNotFound]. *)
Lemma report_only_not_found (d : DisplayConfig) (e : EVRInitError) :
  report_display_parameters d = Value (Some e) ->
  e = VRInitError_Driver_HmdDisplayNotFound.
Proof.
  unfold report_display_parameters.
  destruct (Nat.ltb (getNumViewers d) 1); [congruence|].
  destruct (getNumEyes d 0) as [eyes|]; [|discriminate].
  destruct (Nat.ltb eyes 2); [congruence|].
  destruct (or_else _ _) as [[|]|]; congruence.
Qed.

(** X14. [Activate] of the HMD returns what the display checks decide,
    and the tracker callback is registered exactly when it returns
    [VRInitError_None]: after a timeout, a rejected display or a raising
    query the device holds no interface and no callback, also when it was
    active before the call. *)
Theorem hmd_activation_registers (env : Environment) (s : Session) :
  tidy s ->
  let (r, s') := Activate_tracking env s in
  r = Activate env /\
  tidy s' /\
  (r = Value VRInitError_None ->
   trackerInterface s' = Some (next_handle (context s)) /\
   callbacks (context s') = next_handle (context s) :: nil) /\
  (r <> Value VRInitError_None ->
   trackerInterface s' = None /\
   interfaces (context s') = nil /\
   callbacks (context s') = nil).
Proof.
  intros T.
  destruct (free_if_notEmpty_tidy s T) as [I [L [C N]]].
  destruct (acquire_and_register_tidy _ L C) as [T' [I' C']].
  rewrite N in I', C'.
  pose proof (tidy_free s T) as TF.
  assert (forall r : query EVRInitError,
             r <> Value VRInitError_None ->
             r = r /\ tidy (free_if_notEmpty s) /\
             (r = Value VRInitError_None ->
              trackerInterface (free_if_notEmpty s) =
                Some (next_handle (context s)) /\
              callbacks (context (free_if_notEmpty s)) =
                next_handle (context s) :: nil) /\
             (r <> Value VRInitError_None ->
              trackerInterface (free_if_notEmpty s) = None /\
              interfaces (context (free_if_notEmpty s)) = nil /\
              callbacks (context (free_if_notEmpty s)) = nil)) as FAIL.
  { intros r NE. split; [reflexivity|]. split; [exact TF|].
    split; [intros E; contradiction|]. intros _. auto. }
  assert (let r := Value VRInitError_None in
          let s' := acquire_and_register (free_if_notEmpty s) in
          r = r /\ tidy s' /\
          (r = Value VRInitError_None ->
           trackerInterface s' = Some (next_handle (context s)) /\
           callbacks (context s') = next_handle (context s) :: nil) /\
          (r <> Value VRInitError_None ->
           trackerInterface s' = None /\
           interfaces (context s') = nil /\
           callbacks (context s') = nil)) as OK.
  { split; [reflexivity|]. split; [exact T'|].
    split; [intros _; auto|]. intros NE. contradiction. }
  unfold Activate_tracking, Activate.
  destruct (context_started env); simpl; [|apply FAIL; discriminate].
  destruct (display_started env); simpl; [|apply FAIL; discriminate].
  destruct (unexpected_display_parameters (displayConfig_ env)) as [[|]|];
    [| exact OK | apply FAIL; discriminate].
  destruct (report_display_parameters (displayConfig_ env))
    as [[e|]|] eqn:R; [| exact OK | apply FAIL; discriminate].
  apply FAIL. rewrite (report_only_not_found _ _ R). discriminate.
Qed.

Lemma hmd_activation_registers_witness :
  let env := {| context_started := true;
                display_started := false;
                displayConfig_ := (1%nat :: 1%nat :: nil) :: nil |} in
  let s := acquire_and_register (fresh 3) in
  let (r, s') := Activate_tracking env s in
  r = Activate env /\
  tidy s' /\
  (r = Value VRInitError_None ->
   trackerInterface s' = Some (next_handle (context s)) /\
   callbacks (context s') = next_handle (context s) :: nil) /\
  (r <> Value VRInitError_None ->
   trackerInterface s' = None /\
   interfaces (context s') = nil /\
   callbacks (context s') = nil).
Proof.
  apply (hmd_activation_registers
           {| context_started := true;
              display_started := false;
              displayConfig_ := (1%nat :: 1%nat :: nil) :: nil |}
           (acquire_and_register (fresh 3))).
  split; reflexivity.
Defined.

End HmdLifecycle.


(** ** Activation: the polling loops and the display checks *)

Section ActivationFurther.
Import TrackedHMD.

(** X15. A polling loop ends at the first round that finds the status
    good or reads a clock more than five seconds after the start,
    whichever comes first. It reports a timeout only after such a clock
    reading, it is no longer polling once a round has seen one, and it
    does not consult the clock in a round that finds the status good. *)
Theorem wait_until_started_outcome (startTime : Z) (polls : list (bool * Z)) :
  match wait_until_started startTime polls with
  | Ready =>
      exists before now later,
        polls = before ++ (true, now) :: later /\
        Forall (keeps_polling startTime) before
  | TimedOut =>
      exists before now later,
        polls = before ++ (false, now) :: later /\
        startTime + waitTime < now /\
        Forall (keeps_polling startTime) before
  | StillPolling => Forall (keeps_polling startTime) polls
  end.
Proof.
  induction polls as [|[started now] later IH]; simpl.
  - constructor.
  - destruct started.
    + exists nil, now, later. split; [reflexivity|constructor].
    + destruct (now >? startTime + waitTime) eqn:LATE.
      * exists nil, now, later. split; [reflexivity|].
        split; [lia|constructor].
      * assert (keeps_polling startTime (false, now)) as K
          by (split; simpl; [reflexivity|lia]).
        destruct (wait_until_started startTime later).
        -- destruct IH as [before [now' [later' [E F]]]].
           exists ((false, now) :: before), now', later'.
           rewrite E. split; [reflexivity|]. constructor; assumption.
        -- destruct IH as [before [now' [later' [E [L F]]]]].
           exists ((false, now) :: before), now', later'.
           rewrite E. split; [reflexivity|].
           split; [exact L|]. constructor; assumption.
        -- constructor; assumption.
Qed.

(** The display checks reject a configuration only in one shape: at
    least two viewers, the first with at least three eyes, of which eye 0
    has exactly one surface and eye 1 none. *)
Lemma display_checks_reject_iff (env : Environment) :
  Activate env = Value VRInitError_Driver_HmdDisplayNotFound <->
  context_started env = true /\ display_started env = true /\
  exists (eye2 : nat) (eyes : list nat) (viewer1 : list nat)
         (viewers : list (list nat)),
    displayConfig_ env =
      (1%nat :: 0%nat :: eye2 :: eyes) :: viewer1 :: viewers.
Proof.
  unfold Activate. split.
  - destruct (context_started env); simpl; [|discriminate].
    destruct (display_started env); simpl; [|discriminate].
    intros A. split; [reflexivity|]. split; [reflexivity|].
    destruct (displayConfig_ env) as [|viewer0 [|viewer1 viewers]];
      [cbn in A; discriminate A|cbn in A; discriminate A|].
    destruct viewer0 as [|s0 [|s1 [|eye2 eyes]]];
      [cbn in A; discriminate A| | |].
    + destruct s0 as [|[|s0]]; cbn in A; discriminate A.
    + destruct s0 as [|[|s0]], s1 as [|[|s1]]; cbn in A; discriminate A.
    + destruct s0 as [|[|s0]];
        [cbn in A; discriminate A| |cbn in A; discriminate A].
      destruct s1 as [|[|s1]];
        [|cbn in A; discriminate A|cbn in A; discriminate A].
      exists eye2, eyes, viewer1, viewers. reflexivity.
  - intros [-> [-> [eye2 [eyes [viewer1 [viewers ->]]]]]]. reflexivity.
Qed.

End ActivationFurther.

(** ** Display configuration: which display is taken *)

Section ConfigureFurther.
Import TrackedHMD.

Lemma find_contains (s needle : string) :
  contains s needle -> exists n : nat, find s needle = Some n.
Proof.
  intros C. destruct (find s needle) as [n|] eqn:F.
  - exists n. reflexivity.
  - exfalso. apply (find_none_not_contains _ _ F). exact C.
Qed.

(** X17. [configure] takes the first display, in the order of the
    enumeration, whose name contains the configured name: displays
    before it whose names do not contain it are passed over, displays
    after it are not looked at. *)
Theorem configure_first_match (display_name : string)
    (before after : list Display) (display : Display) :
  (forall d : Display, In d before -> ~ contains (name d) display_name) ->
  contains (name display) display_name ->
  configure display_name (before ++ display :: after) = display.
Proof.
  intros N C. unfold configure.
  induction before as [|b before IH]; simpl.
  - destruct (find_contains _ _ C) as [n ->]. reflexivity.
  - rewrite (proj2 (find_npos (name b) display_name))
      by (apply N; left; reflexivity).
    apply IH. intros d I. apply N. right. exact I.
Qed.

Lemma configure_first_match_witness :
  configure "HDK" (desktop_monitor :: headset_panel :: default_display :: nil)
  = headset_panel.
Proof.
  apply (configure_first_match "HDK" (desktop_monitor :: nil)
           (default_display :: nil) headset_panel).
  - intros d [<-|[]]. apply find_none_not_contains. reflexivity.
  - apply (find_some_contains _ _ 13%nat). reflexivity.
Defined.

(** X18. With an empty configured name every name matches: the first
    enumerated display is taken, whatever it is called. *)
Theorem configure_empty_name (display : Display) (others : list Display) :
  configure "" (display :: others) = display.
Proof.
  unfold configure. simpl. rewrite find_unfold.
  destruct (name display); reflexivity.
Qed.

End ConfigureFurther.


(** ** Distortion: eyes kept apart, repeated set-up *)

Section DistortionFurther.
Import TrackedHMD.
Context {RK : RenderKit}.
Local Open Scope R_scope.

(** X20. The eyes are kept apart: the answer for an eye depends on the
    parameters and the interpolators of that eye only (and on the
    overfill factor), not on what is held for the other eye. *)
Theorem distortion_uses_own_eye (self self' : Distortion) (eye : Hmd_Eye)
    (u v : R) :
  nth_error (distortionParameters_ self) (size_t_of_eye eye) =
    nth_error (distortionParameters_ self') (size_t_of_eye eye) ->
  eye_interpolators self eye = eye_interpolators self' eye ->
  overfillFactor_ self = overfillFactor_ self' ->
  ComputeDistortion self eye u v = ComputeDistortion self' eye u v.
Proof.
  intros P I O. unfold ComputeDistortion. rewrite P, O.
  destruct eye; simpl in *; rewrite I; reflexivity.
Qed.

End DistortionFurther.

Lemma distortion_uses_own_eye_witness :
  @TrackedHMD.ComputeDistortion TrackedHMD.no_distortion
    TrackedHMD.no_distortion_members Eye_Left (1 / 4) (3 / 4) =
  @TrackedHMD.ComputeDistortion TrackedHMD.no_distortion
    TrackedHMD.no_distortion_left_only Eye_Left (1 / 4) (3 / 4).
Proof.
  apply (@distortion_uses_own_eye TrackedHMD.no_distortion
           TrackedHMD.no_distortion_members
           TrackedHMD.no_distortion_left_only Eye_Left (1 / 4) (3 / 4)); reflexivity.
Defined.

Section DistortionSetupProperties.
Import TrackedHMD.
Context {RK : RenderKit} {DS : DistortionSetup}.

(** The loop appends one entry per eye of the descriptor. *)
Lemma pushed_parameters (f : nat -> DistortionParameters) (eyes : list nat)
    (parameters : list DistortionParameters) :
  fold_left (fun parameters i => parameters ++ f i :: nil) eyes parameters =
    parameters ++ List.map f eyes.
Proof.
  revert parameters. induction eyes as [|i eyes IH]; intros parameters; simpl.
  - rewrite app_nil_r. reflexivity.
  - rewrite IH, <- app_assoc. reflexivity.
Qed.

Lemma configured_parameters (cfg : OSVRDisplayConfiguration)
    (self self' : Distortion) :
  configureDistortionParameters cfg self = Some self' ->
  distortionParameters_ self' =
    distortionParameters_ self ++
    List.map (fun i => set_desiredTriangles (200 * 64)
                         (make_DistortionParameters cfg i))
      (seq 0 (getEyes_size cfg)).
Proof.
  unfold configureDistortionParameters.
  rewrite (pushed_parameters
             (fun i => set_desiredTriangles (200 * 64)
                         (make_DistortionParameters cfg i))).
  destruct (nth_error _ 0); [|discriminate].
  destruct (nth_error _ 1); [|discriminate].
  intros E. injection E as <-. reflexivity.
Qed.

(** X21. On a device without distortion parameters the set-up succeeds
    exactly when the descriptor has at least two eyes, and then holds one
    entry per eye, in order, each built from the descriptor with
    [m_desiredTriangles] set to 200 * 64. *)
Theorem first_setup (cfg : OSVRDisplayConfiguration) (self : Distortion) :
  distortionParameters_ self = nil ->
  match configureDistortionParameters cfg self with
  | Some self' =>
      (2 <= getEyes_size cfg)%nat /\
      distortionParameters_ self' =
        List.map (fun i => set_desiredTriangles (200 * 64)
                             (make_DistortionParameters cfg i))
          (seq 0 (getEyes_size cfg))
  | None => (getEyes_size cfg < 2)%nat
  end.
Proof.
  intros E.
  destruct (configureDistortionParameters cfg self) as [self'|] eqn:C.
  - pose proof (configured_parameters _ _ _ C) as P. rewrite E in P.
    split; [|exact P].
    revert C. unfold configureDistortionParameters.
    rewrite (pushed_parameters
               (fun i => set_desiredTriangles (200 * 64)
                           (make_DistortionParameters cfg i))), E.
    destruct (getEyes_size cfg) as [|[|n]]; simpl;
      [discriminate|discriminate|intros _; lia].
  - revert C. unfold configureDistortionParameters.
    rewrite (pushed_parameters
               (fun i => set_desiredTriangles (200 * 64)
                           (make_DistortionParameters cfg i))), E.
    destruct (getEyes_size cfg) as [|[|n]]; simpl;
      [intros _; lia|intros _; lia|discriminate].
Qed.

(** X22. A repeated set-up does not replace the parameters in use: on a
    device that already holds parameters for both eyes the new entries
    are appended behind them, entries 0 and 1 stay as they were, and the
    meshes are rebuilt from those old entries, whatever the new
    descriptor says. *)
Theorem repeated_setup_keeps_parameters (cfg : OSVRDisplayConfiguration)
    (self : Distortion) (for_left for_right : DistortionParameters) :
  nth_error (distortionParameters_ self) 0 = Some for_left ->
  nth_error (distortionParameters_ self) 1 = Some for_right ->
  exists self' : Distortion,
    configureDistortionParameters cfg self = Some self' /\
    nth_error (distortionParameters_ self') 0 = Some for_left /\
    nth_error (distortionParameters_ self') 1 = Some for_right /\
    length (distortionParameters_ self') =
      (length (distortionParameters_ self) + getEyes_size cfg)%nat /\
    leftEyeInterpolators_ self' =
      snd (makeUnstructuredMeshInterpolators for_left 0
             (leftEyeInterpolators_ self)) /\
    rightEyeInterpolators_ self' =
      snd (makeUnstructuredMeshInterpolators for_right 1
             (rightEyeInterpolators_ self)).
Proof.
  intros L R.
  assert (forall (i : nat) (p : DistortionParameters)
                 (more : list DistortionParameters),
             nth_error (distortionParameters_ self) i = Some p ->
             nth_error (distortionParameters_ self ++ more) i = Some p) as K.
  { intros i p more E. rewrite nth_error_app1; [exact E|].
    apply nth_error_Some. congruence. }
  unfold configureDistortionParameters.
  rewrite (pushed_parameters
             (fun i => set_desiredTriangles (200 * 64)
                         (make_DistortionParameters cfg i))).
  rewrite (K _ _ _ L), (K _ _ _ R).
  eexists. split; [reflexivity|].
  cbn [distortionParameters_ leftEyeInterpolators_ rightEyeInterpolators_].
  split; [apply K, L|]. split; [apply K, R|].
  split; [|split; reflexivity].
  rewrite length_app, length_map, length_seq. reflexivity.
Qed.

End DistortionSetupProperties.

Lemma first_setup_witness :
  match @TrackedHMD.configureDistortionParameters TrackedHMD.traced_kit
          TrackedHMD.traced_setup (1%nat, 2%nat)
          TrackedHMD.traced_unconfigured with
  | Some self' =>
      (2 <= 2)%nat /\
      TrackedHMD.distortionParameters_ self' =
        List.map (fun i => (1%nat, i, (200 * 64)%nat)) (seq 0 2)
  | None => (2 < 2)%nat
  end.
Proof.
  apply (@first_setup TrackedHMD.traced_kit TrackedHMD.traced_setup
           (1%nat, 2%nat) TrackedHMD.traced_unconfigured).
  reflexivity.
Defined.

Lemma repeated_setup_keeps_parameters_witness :
  exists self' : @TrackedHMD.Distortion TrackedHMD.traced_kit,
    @TrackedHMD.configureDistortionParameters TrackedHMD.traced_kit
      TrackedHMD.traced_setup (2%nat, 2%nat) TrackedHMD.traced_configured =
      Some self' /\
    nth_error (TrackedHMD.distortionParameters_ self') 0 =
      Some (1%nat, 0%nat, (200 * 64)%nat) /\
    nth_error (TrackedHMD.distortionParameters_ self') 1 =
      Some (1%nat, 1%nat, (200 * 64)%nat) /\
    length (TrackedHMD.distortionParameters_ self') = (2 + 2)%nat /\
    TrackedHMD.leftEyeInterpolators_ self' = Some 1%nat /\
    TrackedHMD.rightEyeInterpolators_ self' = Some 1%nat.
Proof.
  apply (@repeated_setup_keeps_parameters TrackedHMD.traced_kit
           TrackedHMD.traced_setup (2%nat, 2%nat)
           TrackedHMD.traced_configured
           (1%nat, 0%nat, (200 * 64)%nat) (1%nat, 1%nat, (200 * 64)%nat));
    reflexivity.
Defined.

(** ** Driver information: the character arrays *)

Section DriverInfoProperties.
Import TrackedDevice.

Lemma skipn_unwritten (k : nat) : skipn k (repeat (@None Ascii.ascii) k) = nil.
Proof. apply skipn_all2. rewrite repeat_length. lia. Qed.

(** The copy followed by the terminating assignment, on any padding of
    NUL characters that is long enough. *)
Lemma copy_terminated (text pad : list Ascii.ascii) (k : nat) :
  Forall (fun c => c <> NUL) text ->
  Forall (fun c => c = NUL) pad ->
  (S k <= length pad)%nat ->
  c_str (<[k := Some NUL]> (List.map Some (firstn (S k) (text ++ pad)))) =
    Some (string_of_list_ascii (firstn k text)) /\
  length (<[k := Some NUL]> (List.map Some (firstn (S k) (text ++ pad)))) =
    S k.
Proof.
  intros T P L. split.
  - revert k L. induction T as [|c text C T IH]; intros k L.
    + destruct pad as [|p pad]; [simpl in L; lia|].
      apply Forall_cons_iff in P. destruct P as [-> P].
      destruct k; simpl; reflexivity.
    + destruct k as [|k].
      * reflexivity.
      * change (c_str (Some c :: <[k := Some NUL]>
                         (List.map Some (firstn (S k) (text ++ pad)))) =
                Some (String c (string_of_list_ascii (firstn k text)))).
        cbn [c_str]. destruct (Ascii.eqb_spec c NUL) as [E|_];
          [contradiction|].
        rewrite IH by lia. reflexivity.
  - rewrite length_insert, length_map, length_firstn, length_app. lia.
Qed.

Lemma strncpy_unwritten (text : string) (k : nat) :
  Forall (fun c => c <> NUL) (list_ascii_of_string text) ->
  let a := set_char (strncpy (repeat None (S k)) text (S k)) (S k - 1) NUL in
  c_str a = Some (truncated k text) /\ length a = S k.
Proof.
  intros T a. subst a. unfold strncpy, set_char, truncated.
  rewrite skipn_unwritten, app_nil_r.
  replace (S k - 1)%nat with k by lia.
  apply copy_terminated; [exact T| |rewrite repeat_length; lia].
  apply List.Forall_forall. intros c I. apply repeat_spec in I. exact I.
Qed.

(** X23. Whatever the size of the character arrays (at least one
    element), the tracking system id, the serial number and the model
    number of the driver information are NUL-terminated within their
    array and read as "OSVR", "0" and "OSVR HMD", cut to the size of the
    array less one where they do not fit; the render model name reads as
    the empty string. *)
Theorem driver_info_strings (k : nat) :
  let info := GetTrackedDeviceDriverInfo (S k) in
  c_str (rchTrackingSystemId info) = Some (truncated k "OSVR") /\
  c_str (rchSerialNumber info) = Some (truncated k GetSerialNumber) /\
  c_str (rchModelNumber info) = Some (truncated k GetModelNumber) /\
  c_str (rchRenderModelName info) = Some EmptyString /\
  length (rchTrackingSystemId info) = S k /\
  length (rchSerialNumber info) = S k /\
  length (rchModelNumber info) = S k /\
  length (rchRenderModelName info) = S k.
Proof.
  intros info. subst info. unfold GetTrackedDeviceDriverInfo.
  cbn [rchTrackingSystemId rchSerialNumber rchModelNumber rchRenderModelName].
  assert (forall text : string,
             Forall (fun c => c <> NUL) (list_ascii_of_string text) ->
             c_str (set_char (strncpy (repeat None (S k)) text (S k))
                      (S k - 1) NUL) = Some (truncated k text) /\
             length (set_char (strncpy (repeat None (S k)) text (S k))
                       (S k - 1) NUL) = S k) as COPY
    by (intros text T; apply (strncpy_unwritten text k T)).
  destruct (COPY "OSVR"%string) as [I1 L1];
    [repeat constructor; discriminate|].
  destruct (COPY GetSerialNumber) as [I2 L2];
    [repeat constructor; discriminate|].
  destruct (COPY GetModelNumber) as [I3 L3];
    [repeat constructor; discriminate|].
  split; [exact I1|]. split; [exact I2|]. split; [exact I3|].
  split; [reflexivity|].
  split; [exact L1|]. split; [exact L2|]. split; [exact L3|].
  unfold set_char. simpl. rewrite repeat_length. reflexivity.
Qed.

(** With arrays of 32 characters the three texts fit. *)
Example driver_info_32 :
  let info := GetTrackedDeviceDriverInfo 32 in
  c_str (rchTrackingSystemId info) = Some "OSVR"%string /\
  c_str (rchSerialNumber info) = Some "0"%string /\
  c_str (rchModelNumber info) = Some "OSVR HMD"%string.
Proof. repeat split. Qed.

(** With arrays of 5 characters the model number is cut to "OSVR". *)
Example driver_info_5 :
  c_str (rchModelNumber (GetTrackedDeviceDriverInfo 5)) = Some "OSVR"%string.
Proof. reflexivity. Qed.

End DriverInfoProperties.


(** ** Window bounds and render target size *)

Section WindowProperties.
Import TrackedHMD.

Lemma wrap32_range (n : Z) : uint32_range (wrap32 n).
Proof. unfold uint32_range, wrap32. apply Z.mod_pos_bound. lia. Qed.

Lemma static_cast_uint32_IZR (n : Z) :
  uint32_range n -> static_cast_uint32 (IZR n * 1) = n.
Proof.
  intros R. unfold static_cast_uint32, truncate.
  rewrite Rmult_1_r.
  destruct (Rle_dec 0 (IZR n)) as [_|N].
  - rewrite <- (Int_part_spec (IZR n) n) by lra.
    apply wrap32_id, R.
  - exfalso. apply N. apply IZR_le. unfold uint32_range in R. lia.
Qed.

(** X24. The recommended render target has the size of the window: on
    every platform and for all inputs, [GetRecommendedRenderTargetSize]
    returns the width and the height [GetWindowBounds] reports, and both
    lie within [uint32_t]. *)
Theorem render_target_is_window (platform : Platform) (self : WindowInputs) :
  let bounds := GetWindowBounds platform self in
  GetRecommendedRenderTargetSize platform self =
    (window_width bounds, window_height bounds) /\
  uint32_range (window_width bounds) /\
  uint32_range (window_height bounds).
Proof.
  intros bounds. subst bounds.
  assert (uint32_range (window_width (GetWindowBounds platform self)) /\
          uint32_range (window_height (GetWindowBounds platform self)))
    as [W H] by (destruct platform; split; apply wrap32_range).
  split; [|split; assumption].
  unfold GetRecommendedRenderTargetSize.
  rewrite (static_cast_uint32_IZR _ W), (static_cast_uint32_IZR _ H).
  reflexivity.
Qed.

(** X25. After a configuration in which no display name contains the
    configured name, on Windows and macOS the window is the built-in
    1920x1080 one at (1920, 0), whatever the display input and the
    render-manager configuration say. *)
Theorem fallback_window (platform : Platform) (display_name : string)
    (displays : list Display) (dims_width dims_height x y : Z) :
  platform <> OSVR_OTHER ->
  (forall d : Display, In d displays -> ~ contains (name d) display_name) ->
  GetWindowBounds platform
    {| displayDims_width := dims_width;
       displayDims_height := dims_height;
       getWindowXPosition := x;
       getWindowYPosition := y;
       display_ := configure display_name displays |} =
  {| window_x := 1920; window_y := 0;
     window_width := 1920; window_height := 1080 |}.
Proof.
  intros P N. unfold configure. rewrite (detect_none _ _ N).
  destruct platform; [reflexivity|reflexivity|contradiction].
Qed.

Lemma fallback_window_witness :
  GetWindowBounds OSVR_WINDOWS
    {| displayDims_width := 2160;
       displayDims_height := 1200;
       getWindowXPosition := 0;
       getWindowYPosition := 0;
       display_ := configure "OSVR" (desktop_monitor :: nil) |} =
  {| window_x := 1920; window_y := 0;
     window_width := 1920; window_height := 1080 |}.
Proof.
  apply (fallback_window OSVR_WINDOWS "OSVR" (desktop_monitor :: nil)
           2160 1200 0 0).
  - discriminate.
  - intros d [<-|[]]. apply find_none_not_contains. reflexivity.
Defined.

End WindowProperties.

Lemma hmd_distortion_follows_contract_witness :
  @TrackedHMD.ComputeDistortion TrackedHMD.traced_kit
    TrackedHMD.traced_configured Eye_Right (1 / 4) (3 / 4) =
  Some (TrackedHMD.distortion_contract
          (fun color in_coords =>
             @TrackedHMD.DistortionCorrectTextureCoordinate
               TrackedHMD.traced_kit 1%nat in_coords
               (1%nat, 1%nat, (200 * 64)%nat) color 1%R (Some 1%nat))
          (1 / 4) (3 / 4)).
Proof.
  apply (@hmd_distortion_follows_contract TrackedHMD.traced_kit
           TrackedHMD.traced_configured Eye_Right (1 / 4)%R (3 / 4)%R
           (1%nat, 1%nat, (200 * 64)%nat)).
  reflexivity.
Defined.

(** ** Activation with the distortion set-up *)

Section ActivationWithSetup.
Import TrackedHMD.
Context {RK : RenderKit} {DS : DistortionSetup}.

(** The set-up runs out of range exactly when the entries held before
    and the eyes of the descriptor together are fewer than two. *)
Lemma setup_out_of_range (cfg : OSVRDisplayConfiguration) (self : Distortion) :
  configureDistortionParameters cfg self = None <->
  (length (distortionParameters_ self) + getEyes_size cfg < 2)%nat.
Proof.
  unfold configureDistortionParameters.
  rewrite (pushed_parameters
             (fun i => set_desiredTriangles (200 * 64)
                         (make_DistortionParameters cfg i))).
  set (pushed := distortionParameters_ self ++ _).
  assert (length pushed =
          (length (distortionParameters_ self) + getEyes_size cfg)%nat) as L
    by (subst pushed; rewrite length_app, length_map, length_seq;
        reflexivity).
  rewrite <- L. clear L.
  destruct pushed as [|p0 [|p1 pushed]]; simpl.
  - split; [lia|reflexivity].
  - split; [lia|reflexivity].
  - split; [discriminate|lia].
Qed.

(** Past the set-up, the call goes on as the display checks decide. *)
Lemma activate_past_setup (env : Environment) (cfg : OSVRDisplayConfiguration)
    (self : Distortion) :
  context_started env = true ->
  configureDistortionParameters cfg self <> None ->
  Activate_with_setup env (Some cfg) self =
    match Activate env with
    | Value e => Returns e
    | Raises => Throws
    end.
Proof.
  intros C S. unfold Activate_with_setup, Activate. rewrite C. simpl.
  destruct (configureDistortionParameters cfg self); [|contradiction].
  destruct (display_started env); simpl; [|reflexivity].
  destruct (unexpected_display_parameters (displayConfig_ env)) as [[|]|];
    try reflexivity.
  destruct (report_display_parameters (displayConfig_ env)) as [[e|]|];
    reflexivity.
Qed.

(** X16. [Activate] returns [VRInitError_Driver_HmdDisplayNotFound]
    exactly when the context and the display have started, the display
    descriptor was constructed and gives the distortion set-up its two
    entries, and the display configuration has at least two viewers, the
    first with at least three eyes, of which eye 0 has exactly one
    surface and eye 1 none. It runs into the unchecked indexing of the
    set-up exactly when the context has started and the entries held
    before and the eyes of the constructed descriptor together are fewer
    than two. *)
Theorem activate_with_setup_outcomes (env : Environment)
    (descriptor : option OSVRDisplayConfiguration) (self : Distortion) :
  (Activate_with_setup env descriptor self =
     Returns VRInitError_Driver_HmdDisplayNotFound <->
   context_started env = true /\ display_started env = true /\
   (exists cfg : OSVRDisplayConfiguration,
      descriptor = Some cfg /\
      (2 <= length (distortionParameters_ self) + getEyes_size cfg)%nat) /\
   exists (eye2 : nat) (eyes : list nat) (viewer1 : list nat)
          (viewers : list (list nat)),
     displayConfig_ env =
       (1%nat :: 0%nat :: eye2 :: eyes) :: viewer1 :: viewers) /\
  (Activate_with_setup env descriptor self = OutOfRange <->
   context_started env = true /\
   exists cfg : OSVRDisplayConfiguration,
     descriptor = Some cfg /\
     (length (distortionParameters_ self) + getEyes_size cfg < 2)%nat).
Proof.
  split.
  - split.
    + intros A.
      destruct (context_started env) eqn:C;
        [|unfold Activate_with_setup in A; rewrite C in A; discriminate A].
      destruct descriptor as [cfg|];
        [|unfold Activate_with_setup in A; rewrite C in A; discriminate A].
      destruct (configureDistortionParameters cfg self) as [self'|] eqn:S;
        [|unfold Activate_with_setup in A; rewrite C, S in A;
          discriminate A].
      rewrite activate_past_setup in A by (try rewrite S; congruence).
      assert (Activate env = Value VRInitError_Driver_HmdDisplayNotFound)
        as A' by (destruct (Activate env); congruence).
      apply display_checks_reject_iff in A'.
      destruct A' as [_ [D SHAPE]].
      split; [reflexivity|]. split; [exact D|]. split; [|exact SHAPE].
      exists cfg. split; [reflexivity|].
      destruct (Nat.lt_ge_cases
                  (length (distortionParameters_ self) + getEyes_size cfg) 2)
        as [LT|GE]; [|exact GE].
      apply setup_out_of_range in LT. congruence.
    + intros [C [D [[cfg [-> GE]] SHAPE]]].
      assert (configureDistortionParameters cfg self <> None) as S
        by (intros N; apply setup_out_of_range in N; lia).
      rewrite activate_past_setup by assumption.
      rewrite (proj2 (display_checks_reject_iff env))
        by (split; [exact C|split; [exact D|exact SHAPE]]).
      reflexivity.
  - unfold Activate_with_setup. split.
    + destruct (context_started env); simpl; [|discriminate].
      destruct descriptor as [cfg|]; [|discriminate].
      destruct (configureDistortionParameters cfg self) eqn:S.
      * destruct (display_started env); simpl; [|discriminate].
        destruct (unexpected_display_parameters (displayConfig_ env))
          as [[|]|]; try discriminate.
        destruct (report_display_parameters (displayConfig_ env))
          as [[e|]|]; discriminate.
      * intros _. split; [reflexivity|]. exists cfg.
        split; [reflexivity|]. apply setup_out_of_range, S.
    + intros [-> [cfg [-> LT]]]. simpl.
      rewrite (proj2 (setup_out_of_range cfg self) LT). reflexivity.
Qed.

End ActivationWithSetup.

(** A one-eyed descriptor on a device without distortion parameters: the
    activation runs out of range before it reaches the display checks,
    whatever the display configuration. *)
Example activate_one_eyed_descriptor :
  @TrackedHMD.Activate_with_setup TrackedHMD.traced_kit
    TrackedHMD.traced_setup
    {| TrackedHMD.context_started := true;
       TrackedHMD.display_started := true;
       TrackedHMD.displayConfig_ :=
         (1%nat :: 0%nat :: 1%nat :: nil) :: nil :: nil |}
    (Some (1%nat, 1%nat)) TrackedHMD.traced_unconfigured =
  TrackedHMD.OutOfRange.
Proof. reflexivity. Qed.

(** The same display configuration with a two-eyed descriptor is
    rejected by the display checks. *)
Example activate_rejected_display :
  @TrackedHMD.Activate_with_setup TrackedHMD.traced_kit
    TrackedHMD.traced_setup
    {| TrackedHMD.context_started := true;
       TrackedHMD.display_started := true;
       TrackedHMD.displayConfig_ :=
         (1%nat :: 0%nat :: 1%nat :: nil) :: nil :: nil |}
    (Some (1%nat, 2%nat)) TrackedHMD.traced_unconfigured =
  TrackedHMD.Returns TrackedHMD.VRInitError_Driver_HmdDisplayNotFound.
Proof. reflexivity. Qed.
